(** * Book Review System API: a shallow embedding of
      [Book_Review_System_API/main.py] and the properties of its handlers.

    The FastAPI handlers are embedded as computations in a small state and
    exception monad over the two SQLite tables.  Python [int] is [Z]; an
    SQLite INTEGER holds a signed 64-bit integer, and the session
    operations describe the integers that fit it ([sqlite_integer], which
    the statements about an integer of the request assume).  Python [str]
    is [string], an [Optional] query parameter is an [option], and a
    nullable column is an [option] too. *)

From Stdlib Require Import ZArith List String Bool Lia.
From Stdlib Require Import Ascii DecimalString.
Import ListNotations.

Local Open Scope Z_scope.
Local Open Scope string_scope.
Local Open Scope list_scope.

(** ** The tables (SQLAlchemy models) *)

(** [class Book(Base)]: the primary key is set on every stored row; the
    other columns are filled from a [BookCreate] by every writer. *)
Record Book : Type := mkBook {
  Book_id : Z;
  Book_title : string;
  Book_author : string;
  Book_publication_year : Z
}.

(** [class Review(Base)]: [book_id] is a nullable foreign key
    ([Column(Integer, ForeignKey("books.id"))]). *)
Record Review : Type := mkReview {
  Review_id : Z;
  Review_book_id : option Z;
  Review_text : string;
  Review_rating : Z
}.

(** ** The Pydantic models

    [BookCreate] and [ReviewCreate] declare field types only: no [Field]
    constraint, no validator.  A value of the record type is a request body
    that has passed validation. *)
Record BookCreate : Type := mkBookCreate {
  BookCreate_title : string;
  BookCreate_author : string;
  BookCreate_publication_year : Z
}.

Record ReviewCreate : Type := mkReviewCreate {
  ReviewCreate_text : string;
  ReviewCreate_rating : Z
}.

(** JSON values, as far as the response bodies need them. *)
#[local] Set Warnings "-register-all".
Inductive json : Type :=
| JNull
| JInt (n : Z)
| JStr (s : string)
| JList (l : list json)
| JObj (fields : list (string * json)).

Fixpoint json_get (key : string) (fields : list (string * json)) : option json :=
  match fields with
  | [] => None
  | (k, v) :: rest => if String.eqb k key then Some v else json_get key rest
  end.

Definition json_field (key : string) (j : json) : option json :=
  match j with
  | JObj fields => json_get key fields
  | _ => None
  end.

(** What a [response_model] keeps of the object a handler returns. *)
Definition BookCreate_dump (b : Book) : json :=
  JObj [("title", JStr (Book_title b));
        ("author", JStr (Book_author b));
        ("publication_year", JInt (Book_publication_year b))].

Definition ReviewCreate_dump (r : Review) : json :=
  JObj [("text", JStr (Review_text r));
        ("rating", JInt (Review_rating r))].

Definition BookGet_dump (b : Book) : json :=
  JObj [("id", JInt (Book_id b));
        ("title", JStr (Book_title b));
        ("author", JStr (Book_author b));
        ("publication_year", JInt (Book_publication_year b))].

Definition ReviewGet_dump (r : Review) : json :=
  JObj [("id", JInt (Review_id r));
        ("text", JStr (Review_text r));
        ("rating", JInt (Review_rating r))].

(** ** The world a request runs in *)

(** [raise HTTPException(status_code=..., detail=...)]. *)
Record HTTPException : Type := mkHTTPException {
  status_code : Z;
  detail : string
}.

(** A scheduled call [simulate_email_confirmation(db_review)]. *)
Record Task : Type := mkTask { task_review : Review }.

(** The order of the effects of a request, kept as a ghost log. *)
Inductive Event : Type :=
| EvCommit
| EvAddTask (review_id : Z)
| EvResponse
| EvRunTask (review_id : Z).

Record World : Type := mkWorld {
  books : list Book;        (* table "books", in rowid order *)
  reviews : list Review;    (* table "reviews", in rowid order *)
  tasks : list Task;        (* the request's BackgroundTasks *)
  stdout : list string;     (* lines printed *)
  trace : list Event
}.

Definition set_books (l : list Book) (w : World) : World :=
  mkWorld l (reviews w) (tasks w) (stdout w) (trace w).

Definition set_reviews (l : list Review) (w : World) : World :=
  mkWorld (books w) l (tasks w) (stdout w) (trace w).

Definition set_tasks (l : list Task) (w : World) : World :=
  mkWorld (books w) (reviews w) l (stdout w) (trace w).

Definition print (line : string) (w : World) : World :=
  mkWorld (books w) (reviews w) (tasks w) (stdout w ++ [line]) (trace w).

Definition log (e : Event) (w : World) : World :=
  mkWorld (books w) (reviews w) (tasks w) (stdout w) (trace w ++ [e]).

(** ** The monad of handlers: state, and an exception that keeps the
    committed state. *)
Inductive Result (A : Type) : Type :=
| Ok (a : A)
| Raise (e : HTTPException).
Arguments Ok {A} a.
Arguments Raise {A} e.

Definition M (A : Type) : Type := World -> Result A * World.

Definition ret {A} (a : A) : M A := fun w => (Ok a, w).

Definition raise {A} (e : HTTPException) : M A := fun w => (Raise e, w).

Definition bind {A B} (m : M A) (k : A -> M B) : M B :=
  fun w =>
    match m w with
    | (Ok a, w') => k a w'
    | (Raise e, w') => (Raise e, w')
    end.

Declare Scope handler_scope.
Delimit Scope handler_scope with handler.
Notation "x <- m ;; k" := (bind m (fun x => k))
  (at level 61, m at next level, right associativity) : handler_scope.
Notation "m ;; k" := (bind m (fun _ => k))
  (at level 61, right associativity) : handler_scope.
Local Open Scope handler_scope.

(** ** The session operations the handlers use

    Each operation is given for integers that fit an SQLite INTEGER (see
    [sqlite_integer] below): for an integer outside that range the bind of
    the statement raises [OverflowError], which no handler catches. *)

(** The rowid SQLite gives a new row of an [INTEGER PRIMARY KEY] table
    created without the AUTOINCREMENT keyword: 1 in an empty table, one
    more than the largest rowid otherwise. *)
Definition next_rowid (ids : list Z) : Z :=
  match ids with
  | [] => 1
  | x :: xs => fold_right Z.max x xs + 1
  end.

(** [Review.book_id == book_id]: NULL equals nothing. *)
Definition fk_eqb (fk : option Z) (k : Z) : bool :=
  match fk with
  | Some x => Z.eqb x k
  | None => false
  end.

(** [db.query(Book).filter(Book.id == book_id).first()] *)
Definition query_book_first (book_id : Z) : M (option Book) :=
  fun w => (Ok (find (fun b => Z.eqb (Book_id b) book_id) (books w)), w).

(** [db.query(Review).filter(Review.id == review_id).first()] *)
Definition query_review_first (review_id : Z) : M (option Review) :=
  fun w => (Ok (find (fun r => Z.eqb (Review_id r) review_id) (reviews w)), w).

(** [db.query(Review).filter(Review.book_id == book_id).all()] *)
Definition query_reviews_of_book (book_id : Z) : M (list Review) :=
  fun w => (Ok (filter (fun r => fk_eqb (Review_book_id r) book_id) (reviews w)), w).

(** [db.add(db_book); db.commit(); db.refresh(db_book)] for
    the [Book] built from [book.dict()]: the INSERT assigns the id. *)
Definition db_add_commit_refresh_book (book : BookCreate) : M Book :=
  fun w =>
    let db_book := mkBook (next_rowid (map Book_id (books w)))
                          (BookCreate_title book)
                          (BookCreate_author book)
                          (BookCreate_publication_year book) in
    (Ok db_book, log EvCommit (set_books (books w ++ [db_book]) w)).

(** [db.add(db_review); db.commit(); db.refresh(db_review)] for
    the [Review] built from [review.dict()] and [book_id=book_id]. *)
Definition db_add_commit_refresh_review (review : ReviewCreate) (book_id : Z)
  : M Review :=
  fun w =>
    let db_review := mkReview (next_rowid (map Review_id (reviews w)))
                              (Some book_id)
                              (ReviewCreate_text review)
                              (ReviewCreate_rating review) in
    (Ok db_review, log EvCommit (set_reviews (reviews w ++ [db_review]) w)).

(** [for attr, value in book.dict().items(): setattr(db_book, attr, value)] *)
Definition setattr_book (db_book : Book) (book : BookCreate) : Book :=
  mkBook (Book_id db_book)
         (BookCreate_title book)
         (BookCreate_author book)
         (BookCreate_publication_year book).

(** [for attr, value in review.dict().items(): setattr(db_review, attr, value)] *)
Definition setattr_review (db_review : Review) (review : ReviewCreate) : Review :=
  mkReview (Review_id db_review)
           (Review_book_id db_review)
           (ReviewCreate_text review)
           (ReviewCreate_rating review).

(** [db.commit(); db.refresh(db_book)] with [db_book] dirty: the flush
    writes the columns that were set (title, author, publication_year) into
    the row of that primary key, the refresh reads the row back. *)
Definition db_commit_refresh_book (db_book : Book) : M Book :=
  fun w =>
    (Ok db_book,
     log EvCommit
       (set_books
          (map (fun b => if Z.eqb (Book_id b) (Book_id db_book)
                         then mkBook (Book_id b)
                                     (Book_title db_book)
                                     (Book_author db_book)
                                     (Book_publication_year db_book)
                         else b)
               (books w)) w)).

(** [db.commit(); db.refresh(db_review)] with [db_review] dirty: the
    columns that were set are text and rating. *)
Definition db_commit_refresh_review (db_review : Review) : M Review :=
  fun w =>
    (Ok db_review,
     log EvCommit
       (set_reviews
          (map (fun r => if Z.eqb (Review_id r) (Review_id db_review)
                         then mkReview (Review_id r)
                                       (Review_book_id r)
                                       (Review_text db_review)
                                       (Review_rating db_review)
                         else r)
               (reviews w)) w)).

(** What the flush does to a review when its book is deleted:
    [relationship("Review", back_populates="book")] declares no delete
    cascade, so the ORM takes the review out of the deleted book by
    writing NULL into its foreign key; the row itself stays. *)
Definition detach_review (book_id : Z) (r : Review) : Review :=
  if fk_eqb (Review_book_id r) book_id
  then mkReview (Review_id r) None (Review_text r) (Review_rating r)
  else r.

(** [db.delete(db_book); db.commit()] *)
Definition db_delete_commit_book (db_book : Book) : M unit :=
  fun w =>
    (Ok tt,
     log EvCommit
       (set_books
          (filter (fun b => negb (Z.eqb (Book_id b) (Book_id db_book))) (books w))
          (set_reviews (map (detach_review (Book_id db_book)) (reviews w)) w))).

(** [db.delete(db_review); db.commit()] *)
Definition db_delete_commit_review (db_review : Review) : M unit :=
  fun w =>
    (Ok tt,
     log EvCommit
       (set_reviews
          (filter (fun r => negb (Z.eqb (Review_id r) (Review_id db_review))) (reviews w))
          w)).

(** [background_tasks.add_task(simulate_email_confirmation, db_review)] *)
Definition add_task (db_review : Review) : M unit :=
  fun w =>
    (Ok tt, log (EvAddTask (Review_id db_review))
              (set_tasks (tasks w ++ [mkTask db_review]) w)).

(** [simulate_email_confirmation(review)] *)
Definition simulate_email_confirmation (review : Review) : World -> World :=
  print ("Simulating email confirmation for review id "
           ++ NilZero.string_of_int (Z.to_int (Review_id review)))%string.

(** ** The handlers *)

Definition create_book (book : BookCreate) : M Book :=
  db_book <- db_add_commit_refresh_book book ;;
  ret db_book.

Definition create_review (book_id : Z) (review : ReviewCreate) : M Review :=
  db_book <- query_book_first book_id ;;
  match db_book with
  | None => raise (mkHTTPException 404 "Book not found")
  | Some _ =>
      db_review <- db_add_commit_refresh_review review book_id ;;
      add_task db_review ;;
      ret db_review
  end.

(** Python truth of an [Optional[str]] and of an [Optional[int]]. *)
Definition truthy_str (o : option string) : bool :=
  match o with
  | Some s => negb (String.eqb s "")
  | None => false
  end.

Definition truthy_int (o : option Z) : bool :=
  match o with
  | Some n => negb (Z.eqb n 0)
  | None => false
  end.

Definition read_books (author : option string) (publication_year : option Z)
  : M (list Book) :=
  fun w =>
    let query := books w in
    let query :=
      match author with
      | Some a =>
          if truthy_str author
          then filter (fun b => String.eqb (Book_author b) a) query
          else query
      | None => query
      end in
    let query :=
      match publication_year with
      | Some y =>
          if truthy_int publication_year
          then filter (fun b => Z.eqb (Book_publication_year b) y) query
          else query
      | None => query
      end in
    (Ok query, w).

Definition read_reviews (book_id : Z) : M (list Review) :=
  reviews <- query_reviews_of_book book_id ;;
  match reviews with
  | [] => raise (mkHTTPException 404 "No reviews found for this book")
  | _ :: _ => ret reviews
  end.

Definition update_book (book_id : Z) (book : BookCreate) : M Book :=
  db_book <- query_book_first book_id ;;
  match db_book with
  | None => raise (mkHTTPException 404 "Book not found")
  | Some db_book => db_commit_refresh_book (setattr_book db_book book)
  end.

Definition update_review (review_id : Z) (review : ReviewCreate) : M Review :=
  db_review <- query_review_first review_id ;;
  match db_review with
  | None => raise (mkHTTPException 404 "Review not found")
  | Some db_review => db_commit_refresh_review (setattr_review db_review review)
  end.

Definition delete_book (book_id : Z) : M json :=
  db_book <- query_book_first book_id ;;
  match db_book with
  | None => raise (mkHTTPException 404 "Book not found")
  | Some db_book =>
      db_delete_commit_book db_book ;;
      ret (JObj [("message", JStr "Book deleted successfully")])
  end.

Definition delete_review (review_id : Z) : M json :=
  db_review <- query_review_first review_id ;;
  match db_review with
  | None => raise (mkHTTPException 404 "Review not found")
  | Some db_review =>
      db_delete_commit_review db_review ;;
      ret (JObj [("message", JStr "Review deleted successfully")])
  end.

(** ** The request boundary

    FastAPI gives each request a BackgroundTasks of its own, turns the
    value a handler returns into the body its [response_model] describes,
    turns an [HTTPException] into its status and a [detail] body, and runs
    the scheduled tasks once the response went out.  Whether a task raises
    is the environment's choice ([task_raises]); a task that raises ends
    the loop over the remaining tasks. *)
Record Response : Type := mkResponse {
  response_status : Z;
  response_body : json
}.

Definition http_exception_response (e : HTTPException) : Response :=
  mkResponse (status_code e) (JObj [("detail", JStr (detail e))]).

Section RequestBoundary.

Variable task_raises : Task -> bool.

Fixpoint run_tasks (ts : list Task) (w : World) : World :=
  match ts with
  | [] => w
  | t :: rest =>
      let w := log (EvRunTask (Review_id (task_review t))) w in
      if task_raises t then w
      else run_tasks rest (simulate_email_confirmation (task_review t) w)
  end.

Definition serve {A} (dump : A -> json) (handler : M A) (w : World)
  : Response * World :=
  match handler (set_tasks [] w) with
  | (Ok a, w') =>
      (mkResponse 200 (dump a), run_tasks (tasks w') (log EvResponse w'))
  | (Raise e, w') =>
      (http_exception_response e, log EvResponse w')
  end.

Definition post_books (book : BookCreate) :=
  serve BookCreate_dump (create_book book).

Definition post_books_reviews (book_id : Z) (review : ReviewCreate) :=
  serve ReviewCreate_dump (create_review book_id review).

Definition get_books (author : option string) (publication_year : option Z) :=
  serve (fun l => JList (map BookGet_dump l)) (read_books author publication_year).

Definition get_books_reviews (book_id : Z) :=
  serve (fun l => JList (map ReviewGet_dump l)) (read_reviews book_id).

Definition put_books (book_id : Z) (book : BookCreate) :=
  serve BookCreate_dump (update_book book_id book).

Definition put_reviews (review_id : Z) (review : ReviewCreate) :=
  serve ReviewCreate_dump (update_review review_id review).

Definition delete_books (book_id : Z) :=
  serve (fun j : json => j) (delete_book book_id).

Definition delete_reviews (review_id : Z) :=
  serve (fun j : json => j) (delete_review review_id).

End RequestBoundary.

(** ** Worlds used as concrete inputs *)

Definition empty_world : World := mkWorld [] [] [] [] [].

Definition dune : Book := mkBook 1 "Dune" "Herbert" 1965.

(** One book, no review. *)
Definition dune_world : World := mkWorld [dune] [] [] [] [].

(** One book with one review. *)
Definition reviewed_world : World :=
  mkWorld [dune] [mkReview 1 (Some 1) "Great" 5] [] [] [].

(** The rows an INSERT of the handlers writes. *)
Definition inserted_book (book : BookCreate) (w : World) : Book :=
  mkBook (next_rowid (map Book_id (books w)))
         (BookCreate_title book) (BookCreate_author book)
         (BookCreate_publication_year book).

Definition inserted_review (book_id : Z) (review : ReviewCreate) (w : World) : Review :=
  mkReview (next_rowid (map Review_id (reviews w))) (Some book_id)
           (ReviewCreate_text review) (ReviewCreate_rating review).

(** ** The application: its routes *)

(** A request to one of the eight routes registered on [app], with its
    path parameters, query parameters and validated body. *)
Inductive Request : Type :=
| POST_books (book : BookCreate)
| POST_books_reviews (book_id : Z) (review : ReviewCreate)
| GET_books (author : option string) (publication_year : option Z)
| GET_books_reviews (book_id : Z)
| PUT_books (book_id : Z) (book : BookCreate)
| PUT_reviews (review_id : Z) (review : ReviewCreate)
| DELETE_books (book_id : Z)
| DELETE_reviews (review_id : Z).

Definition app (task_raises : Task -> bool) (req : Request) (w : World)
  : Response * World :=
  match req with
  | POST_books book => post_books task_raises book w
  | POST_books_reviews book_id review => post_books_reviews task_raises book_id review w
  | GET_books author publication_year => get_books task_raises author publication_year w
  | GET_books_reviews book_id => get_books_reviews task_raises book_id w
  | PUT_books book_id book => put_books task_raises book_id book w
  | PUT_reviews review_id review => put_reviews task_raises review_id review w
  | DELETE_books book_id => delete_books task_raises book_id w
  | DELETE_reviews review_id => delete_reviews task_raises review_id w
  end.

(** The world after a sequence of requests, served one after the other. *)
Fixpoint run_requests (task_raises : Task -> bool) (reqs : list Request) (w : World)
  : World :=
  match reqs with
  | [] => w
  | req :: rest => run_requests task_raises rest (snd (app task_raises req w))
  end.

(** ** The tests of the module *)

(** [client = TestClient(app)]; the task of the module only prints. *)
Definition client (req : Request) (w : World) : Response * World :=
  app (fun _ => false) req w.

(** [response.json()["title"] == s] and the like. *)
Definition json_is_str (o : option json) (s : string) : bool :=
  match o with
  | Some (JStr t) => String.eqb t s
  | _ => false
  end.

(** [isinstance(response.json(), list)] *)
Definition json_is_list (j : json) : bool :=
  match j with
  | JList _ => true
  | _ => false
  end.

(** Each test returns whether its assertions hold, and the world it leaves. *)
Definition test_create_book (w : World) : bool * World :=
  let (response, w') :=
    client (POST_books (mkBookCreate "Test Book" "Test Author" 2021)) w in
  (Z.eqb (response_status response) 200
   && json_is_str (json_field "title" (response_body response)) "Test Book", w').

Definition test_create_review (w : World) : bool * World :=
  let (response, w') :=
    client (POST_books_reviews 1 (mkReviewCreate "Great book!" 5)) w in
  (Z.eqb (response_status response) 200
   && json_is_str (json_field "text" (response_body response)) "Great book!", w').

Definition test_read_books (w : World) : bool * World :=
  let (response, w') := client (GET_books None None) w in
  (Z.eqb (response_status response) 200
   && json_is_list (response_body response), w').

Definition test_read_reviews (w : World) : bool * World :=
  let (response, w') := client (GET_books_reviews 1) w in
  (Z.eqb (response_status response) 200
   && json_is_list (response_body response), w').

(** The four tests in the order of the file. *)
Definition run_tests (w : World) : list bool * World :=
  let (r1, w1) := test_create_book w in
  let (r2, w2) := test_create_review w1 in
  let (r3, w3) := test_read_books w2 in
  let (r4, w4) := test_read_reviews w3 in
  ([r1; r2; r3; r4], w4).

(** ** Consistency of the two tables *)

(** A foreign key is attached when it is NULL or the id of a stored book. *)
Definition fk_attached (book_ids : list Z) (fk : option Z) : Prop :=
  match fk with
  | Some k => In k book_ids
  | None => True
  end.

(** Primary keys are unique and at least 1 in both tables, and every
    review's [book_id] is attached. *)
Definition store_consistent (w : World) : Prop :=
  NoDup (map Book_id (books w))
  /\ NoDup (map Review_id (reviews w))
  /\ Forall (fun k => 1 <= k) (map Book_id (books w))
  /\ Forall (fun k => 1 <= k) (map Review_id (reviews w))
  /\ Forall (fk_attached (map Book_id (books w))) (map Review_book_id (reviews w)).

(** ** The integers SQLite stores

    An SQLite INTEGER is a signed 64-bit integer: binding a Python [int]
    outside this range raises [OverflowError] before the statement runs, so
    such a lookup finds nothing and such a write stores nothing.  The
    session operations describe the integers inside the range; a statement
    below that says what becomes of an integer of the request assumes that
    it fits. *)
Definition sqlite_integer (n : Z) : Prop := - 2 ^ 63 <= n <= 2 ^ 63 - 1.

(** An optional query parameter fits when it is absent or fits. *)
Definition sqlite_filter (o : option Z) : Prop :=
  match o with
  | Some n => sqlite_integer n
  | None => True
  end.

(** Every integer of the request fits. *)
Definition request_fits (req : Request) : Prop :=
  match req with
  | POST_books book => sqlite_integer (BookCreate_publication_year book)
  | POST_books_reviews book_id review =>
      sqlite_integer book_id /\ sqlite_integer (ReviewCreate_rating review)
  | GET_books _ publication_year => sqlite_filter publication_year
  | GET_books_reviews book_id => sqlite_integer book_id
  | PUT_books book_id book =>
      sqlite_integer book_id /\ sqlite_integer (BookCreate_publication_year book)
  | PUT_reviews review_id review =>
      sqlite_integer review_id /\ sqlite_integer (ReviewCreate_rating review)
  | DELETE_books book_id => sqlite_integer book_id
  | DELETE_reviews review_id => sqlite_integer review_id
  end.

(** * Employee management: [Employee_Management_System/employee_management_system.py]

    Objects live in a heap and are named by their address, so that a
    department stored in a company and the same department held by the
    caller are one object, and two employees with equal fields are still
    two employees ([in] and [remove] compare employees by identity, the
    class defining no [__eq__]).  Names and titles are [str], ids are
    [int]. *)
Module EMS.

(** A Python [dict] with [str] keys: bindings in insertion order. *)
Definition dict (V : Type) : Type := list (string * V).

Fixpoint dict_get {V} (k : string) (d : dict V) : option V :=
  match d with
  | [] => None
  | (k', v) :: rest => if String.eqb k' k then Some v else dict_get k rest
  end.

(** [k in d] *)
Definition dict_mem {V} (k : string) (d : dict V) : bool :=
  match dict_get k d with
  | Some _ => true
  | None => false
  end.

(** [d[k] = v]: a key that is present keeps its place and gets the value,
    a new key goes to the end. *)
Fixpoint dict_set {V} (k : string) (v : V) (d : dict V) : dict V :=
  match d with
  | [] => [(k, v)]
  | (k', v') :: rest =>
      if String.eqb k' k then (k', v) :: rest else (k', v') :: dict_set k v rest
  end.

(** [del d[k]] *)
Fixpoint dict_del {V} (k : string) (d : dict V) : dict V :=
  match d with
  | [] => []
  | (k', v) :: rest => if String.eqb k' k then rest else (k', v) :: dict_del k rest
  end.

Record Employee : Type := mkEmployee {
  Employee_name : string;
  Employee_emp_id : Z;
  Employee_title : string;
  Employee_department : string
}.

(** [employees] holds references to [Employee] objects. *)
Record Department : Type := mkDepartment {
  Department_name : string;
  Department_employees : list nat
}.

(** [departments] maps a name to a reference to a [Department] object. *)
Record Company : Type := mkCompany {
  Company_departments : dict nat
}.

(** The heap of objects (an address is a position), the lines printed,
    and the JSON files by name: a file holds an object of arrays of
    strings. *)
Record Heap : Type := mkHeap {
  employee_objects : list Employee;
  department_objects : list Department;
  console : list string;
  files : dict (dict (list string))
}.

Definition echo (line : string) (h : Heap) : Heap :=
  mkHeap (employee_objects h) (department_objects h) (console h ++ [line]) (files h).

(** Dereferencing: a reference always names an allocated object, the
    default is never reached from the methods below. *)
Definition employee_at (h : Heap) (a : nat) : Employee :=
  nth a (employee_objects h) (mkEmployee "" 0 "" "").

Definition department_at (h : Heap) (a : nat) : Department :=
  nth a (department_objects h) (mkDepartment "" []).

Fixpoint list_update {A} (l : list A) (n : nat) (f : A -> A) : list A :=
  match l, n with
  | [], _ => []
  | x :: rest, O => f x :: rest
  | x :: rest, S n' => x :: list_update rest n' f
  end.

Definition show_int (n : Z) : string := NilZero.string_of_int (Z.to_int n).

(** [Employee(name, emp_id, title, department)] *)
Definition Employee_init (name : string) (emp_id : Z) (title department : string)
  (h : Heap) : nat * Heap :=
  (List.length (employee_objects h),
   mkHeap (employee_objects h ++ [mkEmployee name emp_id title department])
          (department_objects h) (console h) (files h)).

Definition Employee_display_details (self : nat) (h : Heap) : Heap :=
  let e := employee_at h self in
  echo ("Department: " ++ Employee_department e)%string
    (echo ("Title: " ++ Employee_title e)%string
       (echo ("ID: " ++ show_int (Employee_emp_id e))%string
          (echo ("Name: " ++ Employee_name e)%string h))).

Definition Employee_str (e : Employee) : string :=
  (Employee_name e ++ " (ID: " ++ show_int (Employee_emp_id e) ++ ")")%string.

(** [Department(name)] *)
Definition Department_init (name : string) (h : Heap) : nat * Heap :=
  (List.length (department_objects h),
   mkHeap (employee_objects h)
          (department_objects h ++ [mkDepartment name []])
          (console h) (files h)).

Definition set_employees (self : nat) (f : list nat -> list nat) (h : Heap) : Heap :=
  mkHeap (employee_objects h)
         (list_update (department_objects h) self
            (fun d => mkDepartment (Department_name d) (f (Department_employees d))))
         (console h) (files h).

Definition add_employee (self employee : nat) (h : Heap) : Heap :=
  set_employees self (fun l => l ++ [employee]) h.

(** [list.remove(x)]: the first occurrence. *)
Fixpoint list_remove (x : nat) (l : list nat) : list nat :=
  match l with
  | [] => []
  | y :: rest => if Nat.eqb y x then rest else y :: list_remove x rest
  end.

Definition remove_employee (self employee : nat) (h : Heap) : Heap :=
  if existsb (fun y => Nat.eqb y employee) (Department_employees (department_at h self))
  then set_employees self (list_remove employee) h
  else echo "Employee not found in this department." h.

Definition list_employees (self : nat) (h : Heap) : Heap :=
  fold_left (fun h emp => echo (Employee_str (employee_at h emp)) h)
    (Department_employees (department_at h self))
    (echo ("Employees in " ++ Department_name (department_at h self)
             ++ " department:")%string h).

Definition Department_str (d : Department) : string :=
  ("Department: " ++ Department_name d)%string.

(** [Company()] *)
Definition Company_init : Company := mkCompany [].

Definition add_department (self : Company) (department : nat) (h : Heap)
  : Company * Heap :=
  let name := Department_name (department_at h department) in
  if negb (dict_mem name (Company_departments self))
  then (mkCompany (dict_set name department (Company_departments self)), h)
  else (self, echo "Department already exists." h).

Definition remove_department (self : Company) (department_name : string) (h : Heap)
  : Company * Heap :=
  if dict_mem department_name (Company_departments self)
  then (mkCompany (dict_del department_name (Company_departments self)), h)
  else (self, echo "Department not found." h).

Definition display_departments (self : Company) (h : Heap) : Heap :=
  fold_left (fun h kv => echo (Department_str (department_at h (snd kv))) h)
    (Company_departments self)
    (echo "Departments in the company:" h).

(** The dict comprehension of [save_to_file]. *)
Definition company_data (self : Company) (h : Heap) : dict (list string) :=
  fold_left
    (fun data kv =>
       let department := department_at h (snd kv) in
       dict_set (Department_name department)
         (map (fun emp => Employee_name (employee_at h emp))
              (Department_employees department))
         data)
    (Company_departments self) [].

Definition save_to_file (self : Company) (filename : string) (h : Heap) : Heap :=
  mkHeap (employee_objects h) (department_objects h) (console h)
         (dict_set filename (company_data self h) (files h)).

(** The inner loop of [load_from_file]. *)
Fixpoint load_employees (department : nat) (department_name : string)
  (employee_names : list string) (h : Heap) : Heap :=
  match employee_names with
  | [] => h
  | emp_name :: rest =>
      let emp_id :=
        Z.of_nat (List.length (Department_employees (department_at h department))) + 1 in
      let (employee, h) := Employee_init emp_name emp_id "Employee" department_name h in
      load_employees department department_name rest (add_employee department employee h)
  end.

(** The outer loop of [load_from_file]. *)
Fixpoint load_departments (data : dict (list string)) (self : Company) (h : Heap)
  : Company * Heap :=
  match data with
  | [] => (self, h)
  | (department_name, employee_names) :: rest =>
      let (department, h) := Department_init department_name h in
      let (self, h) := add_department self department h in
      load_departments rest self
        (load_employees department department_name employee_names h)
  end.

(** [None] is the [FileNotFoundError] of [open(filename, 'r')]. *)
Definition load_from_file (self : Company) (filename : string) (h : Heap)
  : option (Company * Heap) :=
  match dict_get filename (files h) with
  | None => None
  | Some data => Some (load_departments data self h)
  end.

Definition empty_heap : Heap := mkHeap [] [] [] [].

(** ** The menu *)

Definition menu_lines : list string :=
  [String "010"%char "Employee Management System Menu:";
   "1. Add Employee";
   "2. Remove Employee";
   "3. Display Department";
   "4. Add Department";
   "5. Remove Department";
   "6. Display All Departments";
   "7. Save Company Data to File";
   "8. Load Company Data from File";
   "9. Exit"].

Definition print_menu (h : Heap) : Heap :=
  fold_left (fun h line => echo line h) menu_lines h.

(** How the script ends: by [break], or by the [EOFError] of [input] when
    the input is exhausted. *)
Inductive Ending : Type :=
| Exited
| EOFError.

(** The loop of the script over the lines typed; [input] writes its
    prompt.  The branches of the choices 1 to 8 are [pass]. *)
Fixpoint main_loop (company : Company) (inputs : list string) (h : Heap)
  : Ending * Company * Heap :=
  let h := echo "Enter your choice: " (print_menu h) in
  match inputs with
  | [] => (EOFError, company, h)
  | choice :: rest =>
      if String.eqb choice "1" then main_loop company rest h
      else if String.eqb choice "2" then main_loop company rest h
      else if String.eqb choice "3" then main_loop company rest h
      else if String.eqb choice "4" then main_loop company rest h
      else if String.eqb choice "5" then main_loop company rest h
      else if String.eqb choice "6" then main_loop company rest h
      else if String.eqb choice "7" then main_loop company rest h
      else if String.eqb choice "8" then main_loop company rest h
      else if String.eqb choice "9" then (Exited, company, echo "Exiting..." h)
      else main_loop company rest
             (echo "Invalid choice. Please enter a number from 1 to 9." h)
  end.

Definition main (inputs : list string) (h : Heap) : Ending * Company * Heap :=
  main_loop Company_init inputs h.

(** What one line typed adds to the output before the next menu. *)
Definition answer_to (choice : string) : list string :=
  if existsb (String.eqb choice) ["1"; "2"; "3"; "4"; "5"; "6"; "7"; "8"]
  then []
  else ["Invalid choice. Please enter a number from 1 to 9."].

(** ** What the statements about companies need *)

(** The employees the inner loop of [load_from_file] creates for the
    names of one department, the first of them at position [start] of the
    department. *)
Fixpoint loaded_employees (department_name : string) (start : nat)
  (employee_names : list string) : list Employee :=
  match employee_names with
  | [] => []
  | emp_name :: rest =>
      mkEmployee emp_name (Z.of_nat start + 1) "Employee" department_name
      :: loaded_employees department_name (S start) rest
  end.

(** The departments of a company, each with the names of its employees. *)
Definition company_view (self : Company) (h : Heap) : dict (list string) :=
  map (fun kv =>
         (fst kv,
          map (fun emp => Employee_name (employee_at h emp))
              (Department_employees (department_at h (snd kv)))))
      (Company_departments self).

(** The departments of a company, each with its employee objects. *)
Definition company_staff (self : Company) (h : Heap) : dict (list Employee) :=
  map (fun kv =>
         (fst kv, map (employee_at h) (Department_employees (department_at h (snd kv)))))
      (Company_departments self).

(** A company as the methods build it: distinct keys, every department
    allocated and stored under its own name, every employee of it
    allocated. *)
Definition company_wf (self : Company) (h : Heap) : Prop :=
  NoDup (map fst (Company_departments self))
  /\ Forall
       (fun kv =>
          (snd kv < List.length (department_objects h))%nat
          /\ Department_name (department_at h (snd kv)) = fst kv
          /\ Forall (fun a => (a < List.length (employee_objects h))%nat)
                    (Department_employees (department_at h (snd kv))))
       (Company_departments self).

End EMS.

(** * Properties *)

Ltac fits := unfold sqlite_integer; lia.

(** ** Lookups *)

Lemma find_book_absent (book_id : Z) (l : list Book) :
  (forall b, In b l -> Book_id b <> book_id) ->
  find (fun b => Z.eqb (Book_id b) book_id) l = None.
Proof.
  induction l as [|b l IH]; intros H; simpl; [reflexivity|].
  destruct (Z.eqb_spec (Book_id b) book_id) as [E|_].
  - exfalso. apply (H b); [left; reflexivity | exact E].
  - apply IH. intros b' Hin. apply H. right. exact Hin.
Qed.

Lemma find_book_present (book_id : Z) (l : list Book) :
  (exists b, In b l /\ Book_id b = book_id) ->
  exists b, find (fun b => Z.eqb (Book_id b) book_id) l = Some b
            /\ In b l /\ Book_id b = book_id.
Proof.
  intros [b [Hin Hid]].
  destruct (find (fun b => Z.eqb (Book_id b) book_id) l) as [b'|] eqn:F.
  - exists b'. apply find_some in F. destruct F as [Hin' E].
    apply Z.eqb_eq in E. auto.
  - exfalso. apply (find_none _ _ F) in Hin. rewrite Hid, Z.eqb_refl in Hin.
    discriminate.
Qed.

Lemma find_review_present (review_id : Z) (l : list Review) :
  (exists r, In r l /\ Review_id r = review_id) ->
  exists r, find (fun r => Z.eqb (Review_id r) review_id) l = Some r
            /\ In r l /\ Review_id r = review_id.
Proof.
  intros [r [Hin Hid]].
  destruct (find (fun r => Z.eqb (Review_id r) review_id) l) as [r'|] eqn:F.
  - exists r'. apply find_some in F. destruct F as [Hin' E].
    apply Z.eqb_eq in E. auto.
  - exfalso. apply (find_none _ _ F) in Hin. rewrite Hid, Z.eqb_refl in Hin.
    discriminate.
Qed.

(** ** Row ids *)

Lemma fold_max_ge (x : Z) (xs : list Z) :
  x <= fold_right Z.max x xs /\ forall y, In y xs -> y <= fold_right Z.max x xs.
Proof.
  induction xs as [|a xs [IH1 IH2]]; simpl.
  - split; [lia | intros y []].
  - split; [lia|]. intros y [->|Hy]; [lia|]. specialize (IH2 y Hy). lia.
Qed.

Lemma next_rowid_above (ids : list Z) (x : Z) :
  In x ids -> x < next_rowid ids.
Proof.
  destruct ids as [|a ids]; simpl; [intros []|].
  destruct (fold_max_ge a ids) as [H1 H2].
  intros [<-|Hin]; [lia|]. specialize (H2 x Hin). lia.
Qed.

Lemma next_rowid_fresh (ids : list Z) : ~ In (next_rowid ids) ids.
Proof.
  intros Hin. apply next_rowid_above in Hin. lia.
Qed.

(** ** Listing the reviews of a book *)

Lemma filter_nil_iff {A} (p : A -> bool) (l : list A) :
  filter p l = [] <-> forall x, In x l -> p x = false.
Proof.
  induction l as [|a l IH]; simpl.
  - split; [intros _ x [] | reflexivity].
  - destruct (p a) eqn:Pa.
    + split; [discriminate|]. intros H. specialize (H a (or_introl eq_refl)).
      congruence.
    + rewrite IH. split.
      * intros H x [<-|Hx]; auto.
      * intros H x Hx. apply H. right. exact Hx.
Qed.

Lemma fk_eqb_eq (fk : option Z) (k : Z) : fk_eqb fk k = true <-> fk = Some k.
Proof.
  destruct fk as [x|]; simpl.
  - rewrite Z.eqb_eq. split; [intros ->; reflexivity | intros [= ->]; reflexivity].
  - split; discriminate.
Qed.

(** C1, as the claim states it, fails: [dune_world] holds book 1 and no
    review, and [read_reviews 1] raises the 404 "No reviews found for this
    book" where the claim wants an empty list. *)
Lemma read_reviews_existing_book_without_reviews :
  In dune (books dune_world)
  /\ Book_id dune = 1
  /\ reviews dune_world = []
  /\ read_reviews 1 dune_world
     = (Raise (mkHTTPException 404 "No reviews found for this book"), dune_world).
Proof.
  repeat split. left. reflexivity.
Qed.

(** C1, amended: [read_reviews] never looks the book up.  For a
    [book_id] that fits an SQLite INTEGER, it raises the 404 "No reviews
    found for this book" exactly when no stored review has the given
    [book_id], whether or not that book exists, and returns the reviews of
    that [book_id] in table order, a non-empty list, otherwise; the world
    is left as it was. *)
Theorem read_reviews_by_reviews_only (book_id : Z) (w : World)
  (Hid : sqlite_integer book_id) :
  ((forall r, In r (reviews w) -> Review_book_id r <> Some book_id) ->
     read_reviews book_id w
     = (Raise (mkHTTPException 404 "No reviews found for this book"), w))
  /\ ((exists r, In r (reviews w) /\ Review_book_id r = Some book_id) ->
        exists l,
          read_reviews book_id w = (Ok l, w)
          /\ l <> []
          /\ l = filter (fun r => fk_eqb (Review_book_id r) book_id) (reviews w)
          /\ (forall r, In r l <-> In r (reviews w) /\ Review_book_id r = Some book_id)).
Proof.
  unfold read_reviews, bind, query_reviews_of_book, raise, ret.
  split.
  - intros H.
    assert (E : filter (fun r => fk_eqb (Review_book_id r) book_id) (reviews w) = []).
    { apply filter_nil_iff. intros r Hr.
      destruct (fk_eqb (Review_book_id r) book_id) eqn:F; [|reflexivity].
      apply fk_eqb_eq in F. exfalso. exact (H r Hr F). }
    rewrite E. reflexivity.
  - intros [r [Hin Hfk]].
    exists (filter (fun r => fk_eqb (Review_book_id r) book_id) (reviews w)).
    assert (Hr : In r (filter (fun r => fk_eqb (Review_book_id r) book_id) (reviews w))).
    { apply filter_In. split; [exact Hin | apply fk_eqb_eq; exact Hfk]. }
    destruct (filter (fun r => fk_eqb (Review_book_id r) book_id) (reviews w))
      as [|r0 l] eqn:E; [destruct Hr|].
    repeat split; try discriminate.
    + rewrite <- E in H. apply filter_In in H. tauto.
    + rewrite <- E in H. apply filter_In in H. apply fk_eqb_eq. tauto.
    + intros [H1 H2]. rewrite <- E. apply filter_In. split; [exact H1|].
      apply fk_eqb_eq. exact H2.
Qed.

Lemma read_reviews_by_reviews_only_witness :
  read_reviews 2 reviewed_world
  = (Raise (mkHTTPException 404 "No reviews found for this book"), reviewed_world)
  /\ exists l,
       read_reviews 1 reviewed_world = (Ok l, reviewed_world)
       /\ l <> []
       /\ l = filter (fun r => fk_eqb (Review_book_id r) 1) (reviews reviewed_world)
       /\ (forall r, In r l <->
                     In r (reviews reviewed_world) /\ Review_book_id r = Some 1).
Proof.
  assert (F1 : sqlite_integer 1) by fits.
  assert (F2 : sqlite_integer 2) by fits.
  split.
  - apply (read_reviews_by_reviews_only 2 reviewed_world F2).
    intros r [<-|[]]. discriminate.
  - apply (read_reviews_by_reviews_only 1 reviewed_world F1).
    exists (mkReview 1 (Some 1) "Great" 5). split; [left; reflexivity | reflexivity].
Defined.

(** ** Submitting a review *)

(** C2: for a [book_id] that fits an SQLite INTEGER: where no stored book
    has the given id, [create_review] raises the 404 "Book not found" and
    leaves the world, its reviews included, as it was; where a stored book
    has it and the rating fits too, the review is appended to the reviews
    table with that [book_id] and the submitted text and rating, and it is
    the value returned. *)
Theorem create_review_book_not_found_or_persisted
  (book_id : Z) (review : ReviewCreate) (w : World)
  (Hid : sqlite_integer book_id) :
  ((forall b, In b (books w) -> Book_id b <> book_id) ->
     create_review book_id review w
     = (Raise (mkHTTPException 404 "Book not found"), w))
  /\ ((exists b, In b (books w) /\ Book_id b = book_id) ->
      sqlite_integer (ReviewCreate_rating review) ->
        exists r,
          fst (create_review book_id review w) = Ok r
          /\ reviews (snd (create_review book_id review w)) = reviews w ++ [r]
          /\ books (snd (create_review book_id review w)) = books w
          /\ Review_book_id r = Some book_id
          /\ Review_text r = ReviewCreate_text review
          /\ Review_rating r = ReviewCreate_rating review).
Proof.
  unfold create_review, bind, query_book_first.
  split.
  - intros H. rewrite (find_book_absent book_id (books w) H). reflexivity.
  - intros H _. destruct (find_book_present book_id (books w) H) as [b [F _]].
    rewrite F. simpl. eexists. repeat split.
Qed.

Lemma create_review_book_not_found_or_persisted_witness :
  create_review 999 (mkReviewCreate "Great" 5) reviewed_world
  = (Raise (mkHTTPException 404 "Book not found"), reviewed_world)
  /\ exists r,
       fst (create_review 1 (mkReviewCreate "Fine" 4) reviewed_world) = Ok r
       /\ reviews (snd (create_review 1 (mkReviewCreate "Fine" 4) reviewed_world))
          = reviews reviewed_world ++ [r]
       /\ books (snd (create_review 1 (mkReviewCreate "Fine" 4) reviewed_world))
          = books reviewed_world
       /\ Review_book_id r = Some 1
       /\ Review_text r = "Fine"
       /\ Review_rating r = 4.
Proof.
  assert (F1 : sqlite_integer 1) by fits.
  assert (F999 : sqlite_integer 999) by fits.
  split.
  - apply (create_review_book_not_found_or_persisted 999 (mkReviewCreate "Great" 5)
             reviewed_world F999).
    intros b [<-|[]]. discriminate.
  - apply (create_review_book_not_found_or_persisted 1 (mkReviewCreate "Fine" 4)
             reviewed_world F1).
    + exists dune. split; [left; reflexivity | reflexivity].
    + simpl. fits.
Defined.

(** ** What each writer does once its lookup is settled *)

Lemma create_book_run (book : BookCreate) (w : World) :
  create_book book w
  = (Ok (inserted_book book w),
     log EvCommit (set_books (books w ++ [inserted_book book w]) w)).
Proof. reflexivity. Qed.

Lemma create_review_run (book_id : Z) (review : ReviewCreate) (w : World) :
  (exists b, In b (books w) /\ Book_id b = book_id) ->
  create_review book_id review w
  = (Ok (inserted_review book_id review w),
     log (EvAddTask (Review_id (inserted_review book_id review w)))
       (set_tasks (tasks w ++ [mkTask (inserted_review book_id review w)])
          (log EvCommit
             (set_reviews (reviews w ++ [inserted_review book_id review w]) w)))).
Proof.
  intros H. destruct (find_book_present book_id (books w) H) as [b [F _]].
  unfold create_review, bind, query_book_first. rewrite F. reflexivity.
Qed.


Lemma update_review_run (review_id : Z) (review : ReviewCreate) (w : World) :
  (exists r, In r (reviews w) /\ Review_id r = review_id) ->
  exists r0, In r0 (reviews w) /\ Review_id r0 = review_id
    /\ find (fun r => Z.eqb (Review_id r) review_id) (reviews w) = Some r0
    /\ fst (update_review review_id review w) = Ok (setattr_review r0 review)
    /\ In (setattr_review r0 review) (reviews (snd (update_review review_id review w)))
    /\ books (snd (update_review review_id review w)) = books w.
Proof.
  intros H. destruct (find_review_present review_id (reviews w) H) as [r0 [F [Hin Hid]]].
  exists r0. unfold update_review, bind, query_review_first. rewrite F. simpl.
  repeat split; auto.
  apply in_map_iff. exists r0. rewrite Z.eqb_refl. split; [|exact Hin].
  reflexivity.
Qed.

(** ** Validation of ratings *)

(** C3, as the claim states it, fails: rating 10 is stored by
    [create_review] for the existing book 1, and rating 0 is written over
    the stored review 1 by [update_review]; neither raises. *)
Lemma rating_out_of_bounds_is_stored :
  create_review 1 (mkReviewCreate "Great" 10) dune_world
  = (Ok (mkReview 1 (Some 1) "Great" 10),
     mkWorld [dune] [mkReview 1 (Some 1) "Great" 10]
             [mkTask (mkReview 1 (Some 1) "Great" 10)] []
             [EvCommit; EvAddTask 1])
  /\ update_review 1 (mkReviewCreate "Great" 0) reviewed_world
     = (Ok (mkReview 1 (Some 1) "Great" 0),
        mkWorld [dune] [mkReview 1 (Some 1) "Great" 0] [] [] [EvCommit]).
Proof. split; reflexivity. Qed.

(** C3, amended: no bound on the rating is enforced beyond the range of
    an SQLite INTEGER.  For every integer rating outside [1,5] that fits
    an SQLite INTEGER (the ids of the request fitting too),
    [create_review] on an existing book returns and stores a review with
    that rating, and [update_review] on an existing review returns and
    stores that review with that rating; the books table is untouched by
    both. *)
Theorem rating_outside_bounds_accepted
  (rating : Z) (text : string) (book_id review_id : Z) (w : World)
  (Hout : rating < 1 \/ 5 < rating)
  (Hrating : sqlite_integer rating)
  (Hbook_id : sqlite_integer book_id)
  (Hreview_id : sqlite_integer review_id) :
  ((exists b, In b (books w) /\ Book_id b = book_id) ->
     exists r,
       fst (create_review book_id (mkReviewCreate text rating) w) = Ok r
       /\ Review_rating r = rating
       /\ In r (reviews (snd (create_review book_id (mkReviewCreate text rating) w)))
       /\ books (snd (create_review book_id (mkReviewCreate text rating) w)) = books w)
  /\ ((exists r0, In r0 (reviews w) /\ Review_id r0 = review_id) ->
        exists r,
          fst (update_review review_id (mkReviewCreate text rating) w) = Ok r
          /\ Review_id r = review_id
          /\ Review_rating r = rating
          /\ In r (reviews (snd (update_review review_id (mkReviewCreate text rating) w)))
          /\ books (snd (update_review review_id (mkReviewCreate text rating) w)) = books w).
Proof.
  split.
  - intros H. rewrite (create_review_run _ _ _ H). simpl.
    eexists. repeat split. apply in_or_app. right. left. reflexivity.
  - intros H.
    destruct (update_review_run review_id (mkReviewCreate text rating) w H)
      as [r0 [_ [Hid [_ [E [Hin Hb]]]]]].
    exists (setattr_review r0 (mkReviewCreate text rating)).
    repeat split; assumption.
Qed.

Lemma rating_outside_bounds_accepted_witness :
  (exists r,
     fst (create_review 1 (mkReviewCreate "Great" 10) reviewed_world) = Ok r
     /\ Review_rating r = 10
     /\ In r (reviews (snd (create_review 1 (mkReviewCreate "Great" 10) reviewed_world)))
     /\ books (snd (create_review 1 (mkReviewCreate "Great" 10) reviewed_world))
        = books reviewed_world)
  /\ (exists r,
        fst (update_review 1 (mkReviewCreate "Great" 10) reviewed_world) = Ok r
        /\ Review_id r = 1
        /\ Review_rating r = 10
        /\ In r (reviews (snd (update_review 1 (mkReviewCreate "Great" 10) reviewed_world)))
        /\ books (snd (update_review 1 (mkReviewCreate "Great" 10) reviewed_world))
           = books reviewed_world).
Proof.
  destruct (rating_outside_bounds_accepted 10 "Great" 1 1 reviewed_world) as [Hc Hu].
  - right. lia.
  - fits.
  - fits.
  - fits.
  - split.
    + apply Hc. exists dune. split; [left; reflexivity | reflexivity].
    + apply Hu. exists (mkReview 1 (Some 1) "Great" 5).
      split; [left; reflexivity | reflexivity].
Defined.

(** ** Validation of texts *)




(** ** Updating a review *)

Lemma map_update_review_keeps (db_review : Review) (l : list Review) :
  let upd := fun r => if Z.eqb (Review_id r) (Review_id db_review)
                      then mkReview (Review_id r) (Review_book_id r)
                                    (Review_text db_review) (Review_rating db_review)
                      else r in
  map Review_id (map upd l) = map Review_id l
  /\ map Review_book_id (map upd l) = map Review_book_id l.
Proof.
  simpl. rewrite !map_map. split; apply map_ext; intros r;
    destruct (Z.eqb (Review_id r) (Review_id db_review)); reflexivity.
Qed.

(** C10: for a review id and a rating that fit an SQLite INTEGER,
    [update_review] leaves the ids and the book ids of the reviews table as
    they were, row by row, and leaves the books table alone.  When the
    review exists, the value returned has the id asked for and the
    [book_id] the stored review had, with the submitted text and rating,
    and the reviews table after the update is the table before with the
    text and the rating of the rows of that id replaced by the submitted
    ones, every other column and every other row as it was.  When it does
    not exist, the 404 "Review not found" is raised and nothing changes. *)
Theorem update_review_keeps_id_and_book
  (review_id : Z) (review : ReviewCreate) (w : World)
  (Hid : sqlite_integer review_id)
  (Hrating : sqlite_integer (ReviewCreate_rating review)) :
  map Review_id (reviews (snd (update_review review_id review w)))
  = map Review_id (reviews w)
  /\ map Review_book_id (reviews (snd (update_review review_id review w)))
     = map Review_book_id (reviews w)
  /\ books (snd (update_review review_id review w)) = books w
  /\ (forall r0,
        find (fun r => Z.eqb (Review_id r) review_id) (reviews w) = Some r0 ->
        fst (update_review review_id review w)
        = Ok (mkReview review_id (Review_book_id r0)
                       (ReviewCreate_text review) (ReviewCreate_rating review)))
  /\ (forall r, In r (reviews w) -> Review_id r <> review_id ->
                In r (reviews (snd (update_review review_id review w))))
  /\ ((exists r0, In r0 (reviews w) /\ Review_id r0 = review_id) ->
      reviews (snd (update_review review_id review w))
      = map (fun r => if Z.eqb (Review_id r) review_id
                      then mkReview (Review_id r) (Review_book_id r)
                                    (ReviewCreate_text review)
                                    (ReviewCreate_rating review)
                      else r)
            (reviews w))
  /\ ((forall r, In r (reviews w) -> Review_id r <> review_id) ->
      update_review review_id review w
      = (Raise (mkHTTPException 404 "Review not found"), w)).
Proof.
  unfold update_review, bind, query_review_first, raise.
  destruct (find (fun r => Z.eqb (Review_id r) review_id) (reviews w))
    as [r0|] eqn:F; simpl.
  - destruct (map_update_review_keeps (setattr_review r0 review) (reviews w))
      as [Hids Hbk].
    pose proof (find_some _ _ F) as [Hin0 E]. apply Z.eqb_eq in E.
    repeat apply conj.
    + exact Hids.
    + exact Hbk.
    + reflexivity.
    + intros r1 [= <-]. unfold setattr_review. rewrite E. reflexivity.
    + intros r Hin Hne. apply in_map_iff. exists r. split; [|exact Hin].
      simpl. rewrite E. destruct (Z.eqb_spec (Review_id r) review_id); [contradiction|].
      reflexivity.
    + intros _. rewrite E. reflexivity.
    + intros Habs. exfalso. exact (Habs r0 Hin0 E).
  - repeat apply conj; try reflexivity.
    + intros r0 [=].
    + intros r Hin _. exact Hin.
    + intros [r1 [Hin1 E1]]. exfalso.
      pose proof (find_none _ _ F r1 Hin1) as Hn. simpl in Hn.
      rewrite E1, Z.eqb_refl in Hn. discriminate.
Qed.

Lemma update_review_keeps_id_and_book_witness :
  fst (update_review 1 (mkReviewCreate "Changed" 2) reviewed_world)
  = Ok (mkReview 1 (Some 1) "Changed" 2)
  /\ reviews (snd (update_review 1 (mkReviewCreate "Changed" 2) reviewed_world))
     = [mkReview 1 (Some 1) "Changed" 2].
Proof.
  destruct (update_review_keeps_id_and_book 1 (mkReviewCreate "Changed" 2)
              reviewed_world) as [_ [_ [_ [Hret [_ [Htable _]]]]]].
  - fits.
  - simpl. fits.
  - split.
    + apply (Hret (mkReview 1 (Some 1) "Great" 5)). reflexivity.
    + rewrite Htable; [reflexivity|].
      exists (mkReview 1 (Some 1) "Great" 5). split; [left; reflexivity | reflexivity].
Defined.

(** ** Listing books *)

Lemma filter_filter {A} (p q : A -> bool) (l : list A) :
  filter q (filter p l) = filter (fun x => p x && q x) l.
Proof.
  induction l as [|a l IH]; simpl; [reflexivity|].
  destruct (p a); simpl; [destruct (q a)|]; rewrite IH; reflexivity.
Qed.

Lemma filter_true {A} (l : list A) : filter (fun _ => true) l = l.
Proof.
  induction l as [|a l IH]; simpl; [|rewrite IH]; reflexivity.
Qed.

(** The test one query parameter adds to the query of [read_books]. *)
Lemma read_books_as_filter (author : option string) (publication_year : option Z)
  (w : World) :
  read_books author publication_year w
  = (Ok (filter
           (fun b =>
              (if truthy_str author
               then match author with
                    | Some a => String.eqb (Book_author b) a
                    | None => true
                    end
               else true)
              && (if truthy_int publication_year
                  then match publication_year with
                       | Some y => Z.eqb (Book_publication_year b) y
                       | None => true
                       end
                  else true))
           (books w)), w).
Proof.
  unfold read_books.
  rewrite <- filter_filter. f_equal. f_equal.
  assert (Ha :
    match author with
    | Some a => if truthy_str author
                then filter (fun b => String.eqb (Book_author b) a) (books w)
                else books w
    | None => books w
    end
    = filter (fun b => if truthy_str author
                       then match author with
                            | Some a => String.eqb (Book_author b) a
                            | None => true
                            end
                       else true) (books w)).
  { destruct author as [a|]; simpl; [|symmetry; apply filter_true].
    destruct (negb (String.eqb a "")); [reflexivity | symmetry; apply filter_true]. }
  rewrite Ha.
  destruct publication_year as [y|]; simpl; [|symmetry; apply filter_true].
  destruct (negb (Z.eqb y 0)); [reflexivity | symmetry; apply filter_true].
Qed.

(** C5, as the claim states it, fails: with the filter [author=""] the
    query returns the book of author "Herbert", and with
    [publication_year=0] the book of year 1965, neither of which equals the
    filter value. *)
Lemma read_books_falsy_filter_not_equality :
  read_books (Some "") None dune_world = (Ok [dune], dune_world)
  /\ String.eqb (Book_author dune) "" = false
  /\ read_books None (Some 0) dune_world = (Ok [dune], dune_world)
  /\ Z.eqb (Book_publication_year dune) 0 = false.
Proof. repeat split. Qed.

(** C5, amended: for every author filter and every year filter that is
    absent or fits an SQLite INTEGER, [read_books] returns, leaves the
    world as it was, and its result is the books table filtered in table
    order.  With no filter it is the whole table.  A book is in the result
    exactly when it is in the table, its author equals the author filter if
    that filter is given and is not the empty string, and its year equals
    the year filter if that filter is given and is not 0 (the two tests
    combined with AND); a filter that is given as "" or 0 restricts
    nothing. *)
Theorem read_books_truthy_filters
  (author : option string) (publication_year : option Z) (w : World)
  (Hyear : sqlite_filter publication_year) :
  exists l,
    read_books author publication_year w = (Ok l, w)
    /\ (exists p, l = filter p (books w))
    /\ (author = None -> publication_year = None -> l = books w)
    /\ (forall b,
          In b l <->
          In b (books w)
          /\ (forall a, author = Some a -> a <> "" -> Book_author b = a)
          /\ (forall y, publication_year = Some y -> y <> 0 ->
                        Book_publication_year b = y)).
Proof.
  clear Hyear.
  eexists. split; [apply read_books_as_filter|]. split; [eexists; reflexivity|].
  split.
  - intros -> ->. simpl. apply filter_true.
  - intros b. rewrite filter_In, andb_true_iff.
    destruct author as [a|]; destruct publication_year as [y|]; simpl;
      try destruct (String.eqb_spec a ""); try destruct (Z.eqb_spec y 0); simpl;
      rewrite ?String.eqb_eq, ?Z.eqb_eq;
      (split;
       [ intros [Hin [Ha Hy]]; repeat split; try assumption;
         intros ? [=] ?; subst; try assumption; try contradiction;
         try reflexivity
       | intros [Hin [Ha Hy]]; repeat split; try assumption;
         try (apply Ha; [reflexivity | assumption]);
         try (apply Hy; [reflexivity | assumption]) ]).
Qed.

Lemma read_books_truthy_filters_witness :
  exists l,
    read_books (Some "Herbert") (Some 1965) dune_world = (Ok l, dune_world)
    /\ (exists p, l = filter p (books dune_world))
    /\ (Some "Herbert" = None -> Some 1965 = None -> l = books dune_world)
    /\ (forall b,
          In b l <->
          In b (books dune_world)
          /\ (forall a, Some "Herbert" = Some a -> a <> "" -> Book_author b = a)
          /\ (forall y, Some 1965 = Some y -> y <> 0 ->
                        Book_publication_year b = y)).
Proof.
  apply (read_books_truthy_filters (Some "Herbert") (Some 1965) dune_world).
  simpl. fits.
Defined.

(** C9: a filter value that is falsy is taken as no filter.  With
    [author=""] the query is the one without an author filter, with
    [publication_year=0] the one without a year filter, and
    [read_books(author="")], [read_books(publication_year=0)] and
    [read_books(author="", publication_year=0)] return the whole books
    table. *)
Theorem read_books_falsy_filter_is_absent
  (author : option string) (publication_year : option Z) (w : World) :
  read_books (Some "") publication_year w = read_books None publication_year w
  /\ read_books author (Some 0) w = read_books author None w
  /\ read_books (Some "") None w = (Ok (books w), w)
  /\ read_books None (Some 0) w = (Ok (books w), w)
  /\ read_books (Some "") (Some 0) w = (Ok (books w), w).
Proof.
  repeat split.
Qed.

(** ** Deleting a book *)

Lemma detach_review_columns (book_id : Z) (l : list Review) :
  map Review_id (map (detach_review book_id) l) = map Review_id l
  /\ map Review_text (map (detach_review book_id) l) = map Review_text l
  /\ map Review_rating (map (detach_review book_id) l) = map Review_rating l.
Proof.
  rewrite !map_map. repeat split; apply map_ext; intros r; unfold detach_review;
    destruct (fk_eqb (Review_book_id r) book_id); reflexivity.
Qed.

Lemma detach_review_clears (book_id : Z) (r : Review) :
  Review_book_id (detach_review book_id r) <> Some book_id.
Proof.
  unfold detach_review. destruct (fk_eqb (Review_book_id r) book_id) eqn:F; simpl.
  - discriminate.
  - intros E. apply fk_eqb_eq in E. congruence.
Qed.

Lemma detach_review_other (book_id : Z) (r : Review) :
  Review_book_id r <> Some book_id -> detach_review book_id r = r.
Proof.
  intros H. unfold detach_review.
  destruct (fk_eqb (Review_book_id r) book_id) eqn:F; [|reflexivity].
  apply fk_eqb_eq in F. contradiction.
Qed.

(** C6, as the claim states it, fails: deleting book 1, which has review
    1, succeeds (no rejection), and review 1 is still a row of the reviews
    table afterwards (no cascade), its [book_id] now NULL. *)
Lemma delete_book_keeps_its_reviews :
  delete_book 1 reviewed_world
  = (Ok (JObj [("message", JStr "Book deleted successfully")]),
     mkWorld [] [mkReview 1 None "Great" 5] [] [] [EvCommit]).
Proof. reflexivity. Qed.

(** C6, amended: [delete_book] of an existing book always succeeds, also
    when the book has reviews: it is never rejected and never deletes a
    review.  It removes the rows of that id from the books table and keeps
    every review row with its id, text and rating; the reviews that
    referred to the book get a NULL [book_id], the other reviews are
    untouched.  So right after the deletion no review's [book_id] is the
    deleted id, and the book's former reviews remain as rows that belong to
    no book. *)
Theorem delete_book_detaches_reviews (book_id : Z) (w : World)
  (Hbook : exists b, In b (books w) /\ Book_id b = book_id) :
  fst (delete_book book_id w)
  = Ok (JObj [("message", JStr "Book deleted successfully")])
  /\ (forall b, In b (books (snd (delete_book book_id w)))
                <-> In b (books w) /\ Book_id b <> book_id)
  /\ map Review_id (reviews (snd (delete_book book_id w))) = map Review_id (reviews w)
  /\ map Review_text (reviews (snd (delete_book book_id w))) = map Review_text (reviews w)
  /\ map Review_rating (reviews (snd (delete_book book_id w)))
     = map Review_rating (reviews w)
  /\ (forall r, In r (reviews (snd (delete_book book_id w))) ->
                Review_book_id r <> Some book_id)
  /\ (forall r, In r (reviews w) -> Review_book_id r = Some book_id ->
                In (mkReview (Review_id r) None (Review_text r) (Review_rating r))
                   (reviews (snd (delete_book book_id w))))
  /\ (forall r, In r (reviews w) -> Review_book_id r <> Some book_id ->
                In r (reviews (snd (delete_book book_id w)))).
Proof.
  destruct (find_book_present book_id (books w) Hbook) as [b0 [F [_ Hid]]].
  unfold delete_book, bind, query_book_first. rewrite F. simpl. rewrite Hid.
  destruct (detach_review_columns book_id (reviews w)) as [H1 [H2 H3]].
  repeat apply conj; try assumption.
  - reflexivity.
  - intros b. rewrite filter_In, negb_true_iff, Z.eqb_neq. reflexivity.
  - intros r Hin. apply in_map_iff in Hin. destruct Hin as [r0 [<- _]].
    apply detach_review_clears.
  - intros r Hin Hfk. apply in_map_iff. exists r. split; [|exact Hin].
    unfold detach_review. apply fk_eqb_eq in Hfk. rewrite Hfk. reflexivity.
  - intros r Hin Hfk. apply in_map_iff. exists r. split; [|exact Hin].
    apply detach_review_other. exact Hfk.
Qed.

Lemma delete_book_detaches_reviews_witness :
  fst (delete_book 1 reviewed_world)
  = Ok (JObj [("message", JStr "Book deleted successfully")])
  /\ map Review_id (reviews (snd (delete_book 1 reviewed_world))) = [1]
  /\ In (mkReview 1 None "Great" 5) (reviews (snd (delete_book 1 reviewed_world))).
Proof.
  destruct (delete_book_detaches_reviews 1 reviewed_world)
    as [Hok [_ [Hids [_ [_ [_ [Hdet _]]]]]]].
  - exists dune. split; [left; reflexivity | reflexivity].
  - split; [exact Hok|]. split; [exact Hids|].
    apply (Hdet (mkReview 1 (Some 1) "Great" 5)); [left; reflexivity | reflexivity].
Defined.

(** ** What a create returns *)


Lemma run_tasks_tables (task_raises : Task -> bool) (ts : list Task) (w : World) :
  books (run_tasks task_raises ts w) = books w
  /\ reviews (run_tasks task_raises ts w) = reviews w.
Proof.
  revert w. induction ts as [|t ts IH]; intros w; simpl; [split; reflexivity|].
  destruct (task_raises t); [split; reflexivity|].
  destruct (IH (simulate_email_confirmation (task_review t)
                  (log (EvRunTask (Review_id (task_review t))) w))) as [Hb Hr].
  rewrite Hb, Hr. split; reflexivity.
Qed.


(** ** The notification task *)



(** A run of the scenario of the specification: the task prints its line
    after the response, and nothing else is printed. *)
Example post_review_prints_confirmation :
  stdout (snd (post_books_reviews (fun _ => false) 1 (mkReviewCreate "Great" 5)
                                  dune_world))
  = ["Simulating email confirmation for review id 1"].
Proof. reflexivity. Qed.

(** * Further properties of the handlers *)

(** ** Ids that are not in the table *)

Lemma find_review_absent (review_id : Z) (l : list Review) :
  (forall r, In r l -> Review_id r <> review_id) ->
  find (fun r => Z.eqb (Review_id r) review_id) l = None.
Proof.
  induction l as [|r l IH]; intros H; simpl; [reflexivity|].
  destruct (Z.eqb_spec (Review_id r) review_id) as [E|_].
  - exfalso. apply (H r); [left; reflexivity | exact E].
  - apply IH. intros r' Hin. apply H. right. exact Hin.
Qed.

Lemma book_absent_after_filter (book_id : Z) (l : list Book) :
  forall b, In b (filter (fun b => negb (Z.eqb (Book_id b) book_id)) l) ->
            Book_id b <> book_id.
Proof.
  intros b Hin. apply filter_In in Hin. destruct Hin as [_ H].
  apply negb_true_iff, Z.eqb_neq in H. exact H.
Qed.

Lemma review_absent_after_filter (review_id : Z) (l : list Review) :
  forall r, In r (filter (fun r => negb (Z.eqb (Review_id r) review_id)) l) ->
            Review_id r <> review_id.
Proof.
  intros r Hin. apply filter_In in Hin. destruct Hin as [_ H].
  apply negb_true_iff, Z.eqb_neq in H. exact H.
Qed.

Lemma update_book_absent (book_id : Z) (book : BookCreate) (w : World) :
  (forall b, In b (books w) -> Book_id b <> book_id) ->
  update_book book_id book w = (Raise (mkHTTPException 404 "Book not found"), w).
Proof.
  intros H. unfold update_book, bind, query_book_first.
  rewrite (find_book_absent _ _ H). reflexivity.
Qed.

Lemma delete_book_absent (book_id : Z) (w : World) :
  (forall b, In b (books w) -> Book_id b <> book_id) ->
  delete_book book_id w = (Raise (mkHTTPException 404 "Book not found"), w).
Proof.
  intros H. unfold delete_book, bind, query_book_first.
  rewrite (find_book_absent _ _ H). reflexivity.
Qed.

Lemma create_review_absent (book_id : Z) (review : ReviewCreate) (w : World) :
  (forall b, In b (books w) -> Book_id b <> book_id) ->
  create_review book_id review w = (Raise (mkHTTPException 404 "Book not found"), w).
Proof.
  intros H. unfold create_review, bind, query_book_first.
  rewrite (find_book_absent _ _ H). reflexivity.
Qed.

Lemma update_review_absent (review_id : Z) (review : ReviewCreate) (w : World) :
  (forall r, In r (reviews w) -> Review_id r <> review_id) ->
  update_review review_id review w
  = (Raise (mkHTTPException 404 "Review not found"), w).
Proof.
  intros H. unfold update_review, bind, query_review_first.
  rewrite (find_review_absent _ _ H). reflexivity.
Qed.

Lemma delete_review_absent (review_id : Z) (w : World) :
  (forall r, In r (reviews w) -> Review_id r <> review_id) ->
  delete_review review_id w
  = (Raise (mkHTTPException 404 "Review not found"), w).
Proof.
  intros H. unfold delete_review, bind, query_review_first.
  rewrite (find_review_absent _ _ H). reflexivity.
Qed.

(** X1: an update or a delete of an id that fits an SQLite INTEGER and
    that no row has raises the 404 of its table ("Book not found", "Review
    not found") and leaves the whole world as it was: nothing is written,
    scheduled or printed. *)
Theorem update_delete_of_absent_id_raise_404
  (book_id review_id : Z) (book : BookCreate) (review : ReviewCreate) (w : World)
  (Hbook_id : sqlite_integer book_id)
  (Hreview_id : sqlite_integer review_id)
  (Hbook : forall b, In b (books w) -> Book_id b <> book_id)
  (Hreview : forall r, In r (reviews w) -> Review_id r <> review_id) :
  update_book book_id book w = (Raise (mkHTTPException 404 "Book not found"), w)
  /\ delete_book book_id w = (Raise (mkHTTPException 404 "Book not found"), w)
  /\ update_review review_id review w
     = (Raise (mkHTTPException 404 "Review not found"), w)
  /\ delete_review review_id w
     = (Raise (mkHTTPException 404 "Review not found"), w).
Proof.
  repeat apply conj.
  - apply update_book_absent. exact Hbook.
  - apply delete_book_absent. exact Hbook.
  - apply update_review_absent. exact Hreview.
  - apply delete_review_absent. exact Hreview.
Qed.

Lemma update_delete_of_absent_id_raise_404_witness :
  update_book 7 (mkBookCreate "Emma" "Austen" 1815) reviewed_world
  = (Raise (mkHTTPException 404 "Book not found"), reviewed_world)
  /\ delete_book 7 reviewed_world
     = (Raise (mkHTTPException 404 "Book not found"), reviewed_world)
  /\ update_review 7 (mkReviewCreate "Dull" 1) reviewed_world
     = (Raise (mkHTTPException 404 "Review not found"), reviewed_world)
  /\ delete_review 7 reviewed_world
     = (Raise (mkHTTPException 404 "Review not found"), reviewed_world).
Proof.
  apply (update_delete_of_absent_id_raise_404 7 7).
  - fits.
  - fits.
  - intros b [<-|[]]. discriminate.
  - intros r [<-|[]]. discriminate.
Defined.

(** ** Updating a book *)

Lemma map_update_book_ids (db_book : Book) (l : list Book) :
  map Book_id
    (map (fun b => if Z.eqb (Book_id b) (Book_id db_book)
                   then mkBook (Book_id b) (Book_title db_book)
                               (Book_author db_book) (Book_publication_year db_book)
                   else b) l)
  = map Book_id l.
Proof.
  rewrite map_map. apply map_ext. intros b.
  destruct (Z.eqb (Book_id b) (Book_id db_book)); reflexivity.
Qed.







(** ** Deleting a review *)

Lemma delete_review_run (review_id : Z) (w : World) :
  (exists r, In r (reviews w) /\ Review_id r = review_id) ->
  delete_review review_id w
  = (Ok (JObj [("message", JStr "Review deleted successfully")]),
     log EvCommit
       (set_reviews
          (filter (fun r => negb (Z.eqb (Review_id r) review_id)) (reviews w)) w)).
Proof.
  intros H. destruct (find_review_present review_id (reviews w) H) as [r0 [F [_ Hid]]].
  unfold delete_review, bind, query_review_first. rewrite F. simpl. rewrite Hid.
  reflexivity.
Qed.

Lemma delete_book_run (book_id : Z) (w : World) :
  (exists b, In b (books w) /\ Book_id b = book_id) ->
  delete_book book_id w
  = (Ok (JObj [("message", JStr "Book deleted successfully")]),
     log EvCommit
       (set_books
          (filter (fun b => negb (Z.eqb (Book_id b) book_id)) (books w))
          (set_reviews (map (detach_review book_id) (reviews w)) w))).
Proof.
  intros H. destruct (find_book_present book_id (books w) H) as [b0 [F [_ Hid]]].
  unfold delete_book, bind, query_book_first. rewrite F. simpl. rewrite Hid.
  reflexivity.
Qed.

(** X4: [delete_review] of an existing id answers "Review deleted
    successfully" and removes exactly the rows of that id: a review is in
    the table afterwards if and only if it was there before with another
    id, in the same order; the books, the tasks and the output are
    untouched. *)
Theorem delete_review_removes_only_that_review (review_id : Z) (w : World)
  (Hreview : exists r, In r (reviews w) /\ Review_id r = review_id) :
  fst (delete_review review_id w)
  = Ok (JObj [("message", JStr "Review deleted successfully")])
  /\ (forall r, In r (reviews (snd (delete_review review_id w)))
                <-> In r (reviews w) /\ Review_id r <> review_id)
  /\ (exists p, reviews (snd (delete_review review_id w)) = filter p (reviews w))
  /\ books (snd (delete_review review_id w)) = books w
  /\ tasks (snd (delete_review review_id w)) = tasks w
  /\ stdout (snd (delete_review review_id w)) = stdout w.
Proof.
  rewrite (delete_review_run review_id w Hreview). simpl.
  repeat apply conj; try reflexivity.
  - intros r. rewrite filter_In, negb_true_iff, Z.eqb_neq. reflexivity.
  - eexists. reflexivity.
Qed.

Lemma delete_review_removes_only_that_review_witness :
  fst (delete_review 1 reviewed_world)
  = Ok (JObj [("message", JStr "Review deleted successfully")])
  /\ books (snd (delete_review 1 reviewed_world)) = books reviewed_world.
Proof.
  destruct (delete_review_removes_only_that_review 1 reviewed_world)
    as [Hok [_ [_ [Hb _]]]].
  - exists (mkReview 1 (Some 1) "Great" 5). split; [left; reflexivity | reflexivity].
  - split; [exact Hok | exact Hb].
Defined.

(** ** A deleted row is gone *)

(** X5: once [delete_book] has deleted a book, its id resolves to nothing:
    [update_book], a second [delete_book] and [create_review] on that id
    raise the 404 "Book not found", and [read_reviews] of that id raises
    the 404 "No reviews found for this book" (its former reviews no longer
    carry the id); each leaves the world as the deletion left it. *)
Theorem deleted_book_is_not_found
  (book_id : Z) (book : BookCreate) (review : ReviewCreate) (w : World)
  (Hbook : exists b, In b (books w) /\ Book_id b = book_id) :
  update_book book_id book (snd (delete_book book_id w))
  = (Raise (mkHTTPException 404 "Book not found"), snd (delete_book book_id w))
  /\ delete_book book_id (snd (delete_book book_id w))
     = (Raise (mkHTTPException 404 "Book not found"), snd (delete_book book_id w))
  /\ create_review book_id review (snd (delete_book book_id w))
     = (Raise (mkHTTPException 404 "Book not found"), snd (delete_book book_id w))
  /\ read_reviews book_id (snd (delete_book book_id w))
     = (Raise (mkHTTPException 404 "No reviews found for this book"),
        snd (delete_book book_id w)).
Proof.
  rewrite (delete_book_run book_id w Hbook). cbn [snd].
  assert (Habs : forall b,
            In b (books (log EvCommit
                           (set_books
                              (filter (fun b => negb (Z.eqb (Book_id b) book_id)) (books w))
                              (set_reviews (map (detach_review book_id) (reviews w)) w)))) ->
            Book_id b <> book_id).
  { simpl. apply book_absent_after_filter. }
  repeat apply conj.
  - apply update_book_absent. exact Habs.
  - apply delete_book_absent. exact Habs.
  - apply create_review_absent. exact Habs.
  - unfold read_reviews, bind, query_reviews_of_book. simpl.
    assert (E : filter (fun r => fk_eqb (Review_book_id r) book_id)
                  (map (detach_review book_id) (reviews w)) = []).
    { apply filter_nil_iff. intros r Hin. apply in_map_iff in Hin.
      destruct Hin as [r0 [<- _]].
      destruct (fk_eqb (Review_book_id (detach_review book_id r0)) book_id) eqn:F;
        [|reflexivity].
      apply fk_eqb_eq in F. exfalso. exact (detach_review_clears book_id r0 F). }
    rewrite E. reflexivity.
Qed.

Lemma deleted_book_is_not_found_witness :
  update_book 1 (mkBookCreate "Emma" "Austen" 1815) (snd (delete_book 1 reviewed_world))
  = (Raise (mkHTTPException 404 "Book not found"), snd (delete_book 1 reviewed_world))
  /\ delete_book 1 (snd (delete_book 1 reviewed_world))
     = (Raise (mkHTTPException 404 "Book not found"), snd (delete_book 1 reviewed_world))
  /\ create_review 1 (mkReviewCreate "Late" 3) (snd (delete_book 1 reviewed_world))
     = (Raise (mkHTTPException 404 "Book not found"), snd (delete_book 1 reviewed_world))
  /\ read_reviews 1 (snd (delete_book 1 reviewed_world))
     = (Raise (mkHTTPException 404 "No reviews found for this book"),
        snd (delete_book 1 reviewed_world)).
Proof.
  apply (deleted_book_is_not_found 1 (mkBookCreate "Emma" "Austen" 1815)
           (mkReviewCreate "Late" 3) reviewed_world).
  exists dune. split; [left; reflexivity | reflexivity].
Defined.

(** X6: once [delete_review] has deleted a review, [update_review] and a
    second [delete_review] on that id raise the 404 "Review not found", and
    leave the world as the deletion left it. *)
Theorem deleted_review_is_not_found
  (review_id : Z) (review : ReviewCreate) (w : World)
  (Hreview : exists r, In r (reviews w) /\ Review_id r = review_id) :
  update_review review_id review (snd (delete_review review_id w))
  = (Raise (mkHTTPException 404 "Review not found"), snd (delete_review review_id w))
  /\ delete_review review_id (snd (delete_review review_id w))
     = (Raise (mkHTTPException 404 "Review not found"),
        snd (delete_review review_id w)).
Proof.
  rewrite (delete_review_run review_id w Hreview). cbn [snd].
  split.
  - apply update_review_absent. simpl. apply review_absent_after_filter.
  - apply delete_review_absent. simpl. apply review_absent_after_filter.
Qed.

Lemma deleted_review_is_not_found_witness :
  update_review 1 (mkReviewCreate "Late" 3) (snd (delete_review 1 reviewed_world))
  = (Raise (mkHTTPException 404 "Review not found"),
     snd (delete_review 1 reviewed_world))
  /\ delete_review 1 (snd (delete_review 1 reviewed_world))
     = (Raise (mkHTTPException 404 "Review not found"),
        snd (delete_review 1 reviewed_world)).
Proof.
  apply (deleted_review_is_not_found 1 (mkReviewCreate "Late" 3) reviewed_world).
  exists (mkReview 1 (Some 1) "Great" 5). split; [left; reflexivity | reflexivity].
Defined.

(** ** A created row is found *)







(** ** The consistency the requests keep *)

Lemma store_consistent_tables (w1 w2 : World) :
  books w1 = books w2 -> reviews w1 = reviews w2 ->
  store_consistent w2 -> store_consistent w1.
Proof.
  unfold store_consistent. intros -> ->. tauto.
Qed.

Lemma NoDup_map_filter {Row Key} (key : Row -> Key) (keep : Row -> bool)
  (rows : list Row) (Hkeys : NoDup (map key rows)) :
  NoDup (map key (filter keep rows)).
Proof.
  induction rows as [|a l IH]; simpl; [constructor|].
  simpl in Hkeys. inversion Hkeys as [|x xs Hnotin Hnd]; subst.
  destruct (keep a); simpl; [|apply IH; exact Hnd].
  constructor; [|apply IH; exact Hnd].
  intros Hin. apply Hnotin. apply in_map_iff in Hin. destruct Hin as [y [E Hy]].
  apply in_map_iff. exists y. split; [exact E|]. apply filter_In in Hy. tauto.
Qed.

Lemma Forall_map_filter {A B} (P : B -> Prop) (f : A -> B) (p : A -> bool)
  (l : list A) :
  Forall P (map f l) -> Forall P (map f (filter p l)).
Proof.
  rewrite !Forall_forall. intros H y Hin. apply H.
  apply in_map_iff in Hin. destruct Hin as [x [E Hx]].
  apply in_map_iff. exists x. split; [exact E|]. apply filter_In in Hx. tauto.
Qed.

Lemma NoDup_snoc_fresh (ids : list Z) : NoDup ids -> NoDup (ids ++ [next_rowid ids]).
Proof.
  intros H. apply NoDup_app.
  - exact H.
  - constructor; [intros [] | constructor].
  - intros a Ha [<-|[]]. exact (next_rowid_fresh ids Ha).
Qed.

Lemma next_rowid_positive (ids : list Z) :
  Forall (fun k => 1 <= k) ids -> 1 <= next_rowid ids.
Proof.
  destruct ids as [|x xs]; simpl; [lia|]. intros H.
  inversion H; subst. destruct (fold_max_ge x xs) as [Hx _]. lia.
Qed.

Lemma fk_attached_incl (ids ids' : list Z) (fks : list (option Z)) :
  incl ids ids' -> Forall (fk_attached ids) fks -> Forall (fk_attached ids') fks.
Proof.
  intros Hincl. apply Forall_impl. intros [k|]; simpl; [apply Hincl | trivial].
Qed.

Lemma book_present_or_absent (book_id : Z) (l : list Book) :
  (exists b, In b l /\ Book_id b = book_id)
  \/ (forall b, In b l -> Book_id b <> book_id).
Proof.
  destruct (find (fun b => Z.eqb (Book_id b) book_id) l) as [b|] eqn:F.
  - left. exists b. apply find_some in F. rewrite Z.eqb_eq in F. exact F.
  - right. intros b Hin. apply (find_none _ _ F) in Hin.
    apply Z.eqb_neq. exact Hin.
Qed.

Lemma review_present_or_absent (review_id : Z) (l : list Review) :
  (exists r, In r l /\ Review_id r = review_id)
  \/ (forall r, In r l -> Review_id r <> review_id).
Proof.
  destruct (find (fun r => Z.eqb (Review_id r) review_id) l) as [r|] eqn:F.
  - left. exists r. apply find_some in F. rewrite Z.eqb_eq in F. exact F.
  - right. intros r Hin. apply (find_none _ _ F) in Hin.
    apply Z.eqb_neq. exact Hin.
Qed.

Lemma create_book_consistent (book : BookCreate) (w : World) :
  store_consistent w -> store_consistent (snd (create_book book w)).
Proof.
  intros [Hb [Hr [Pb [Pr Hfk]]]]. rewrite create_book_run.
  unfold store_consistent. simpl. rewrite map_app. simpl.
  repeat apply conj; try assumption.
  - apply NoDup_snoc_fresh. exact Hb.
  - apply Forall_app. split; [exact Pb|].
    constructor; [apply next_rowid_positive; exact Pb | constructor].
  - apply (fk_attached_incl (map Book_id (books w))); [|exact Hfk].
    apply incl_appl. apply incl_refl.
Qed.

Lemma create_review_consistent (book_id : Z) (review : ReviewCreate) (w : World) :
  store_consistent w -> store_consistent (snd (create_review book_id review w)).
Proof.
  intros H. destruct (book_present_or_absent book_id (books w)) as [Hex|Habs].
  2:{ rewrite (create_review_absent _ _ _ Habs). exact H. }
  destruct H as [Hb [Hr [Pb [Pr Hfk]]]].
  rewrite (create_review_run _ _ _ Hex).
  unfold store_consistent. simpl. rewrite !map_app. simpl.
  repeat apply conj; try assumption.
  - apply NoDup_snoc_fresh. exact Hr.
  - apply Forall_app. split; [exact Pr|].
    constructor; [apply next_rowid_positive; exact Pr | constructor].
  - apply Forall_app. split; [exact Hfk|].
    constructor; [|constructor]. simpl.
    destruct Hex as [b [Hin <-]]. apply in_map. exact Hin.
Qed.

Lemma update_book_consistent (book_id : Z) (book : BookCreate) (w : World) :
  store_consistent w -> store_consistent (snd (update_book book_id book w)).
Proof.
  intros H. unfold update_book, bind, query_book_first, raise.
  destruct (find (fun b => Z.eqb (Book_id b) book_id) (books w)) as [b0|];
    [|exact H].
  unfold store_consistent. simpl.
  rewrite (map_update_book_ids (setattr_book b0 book)). exact H.
Qed.

Lemma update_review_consistent (review_id : Z) (review : ReviewCreate) (w : World) :
  store_consistent w -> store_consistent (snd (update_review review_id review w)).
Proof.
  intros H. unfold update_review, bind, query_review_first, raise.
  destruct (find (fun r => Z.eqb (Review_id r) review_id) (reviews w)) as [r0|];
    [|exact H].
  unfold store_consistent. simpl.
  destruct (map_update_review_keeps (setattr_review r0 review) (reviews w))
    as [Hid Hbk].
  simpl in Hid, Hbk. rewrite Hid, Hbk. exact H.
Qed.

Lemma delete_book_consistent (book_id : Z) (w : World) :
  store_consistent w -> store_consistent (snd (delete_book book_id w)).
Proof.
  intros H. destruct (book_present_or_absent book_id (books w)) as [Hex|Habs].
  2:{ rewrite (delete_book_absent _ _ Habs). exact H. }
  destruct H as [Hb [Hr [Pb [Pr Hfk]]]].
  rewrite (delete_book_run _ _ Hex).
  unfold store_consistent. simpl.
  destruct (detach_review_columns book_id (reviews w)) as [Hids _].
  rewrite Hids.
  repeat apply conj; try assumption.
  - apply NoDup_map_filter. exact Hb.
  - apply Forall_map_filter. exact Pb.
  - rewrite Forall_forall in *. intros fk Hin.
    apply in_map_iff in Hin. destruct Hin as [r' [<- Hin]].
    apply in_map_iff in Hin. destruct Hin as [r [<- Hin]].
    assert (Hold : fk_attached (map Book_id (books w)) (Review_book_id r)).
    { apply Hfk. apply in_map. exact Hin. }
    unfold detach_review.
    destruct (fk_eqb (Review_book_id r) book_id) eqn:F; simpl; [trivial|].
    destruct (Review_book_id r) as [k|]; simpl in *; [|trivial].
    apply in_map_iff in Hold. destruct Hold as [b [<- Hb0]].
    apply in_map. apply filter_In. split; [exact Hb0|]. rewrite F. reflexivity.
Qed.

Lemma delete_review_consistent (review_id : Z) (w : World) :
  store_consistent w -> store_consistent (snd (delete_review review_id w)).
Proof.
  intros H. destruct (review_present_or_absent review_id (reviews w)) as [Hex|Habs].
  2:{ rewrite (delete_review_absent _ _ Habs). exact H. }
  destruct H as [Hb [Hr [Pb [Pr Hfk]]]].
  rewrite (delete_review_run _ _ Hex).
  unfold store_consistent. simpl.
  repeat apply conj; try assumption.
  - apply NoDup_map_filter. exact Hr.
  - apply Forall_map_filter. exact Pr.
  - apply Forall_map_filter. exact Hfk.
Qed.

Lemma serve_tables {A} (task_raises : Task -> bool) (dump : A -> json)
  (handler : M A) (w : World) :
  books (snd (serve task_raises dump handler w))
  = books (snd (handler (set_tasks [] w)))
  /\ reviews (snd (serve task_raises dump handler w))
     = reviews (snd (handler (set_tasks [] w))).
Proof.
  unfold serve. destruct (handler (set_tasks [] w)) as [[a|e] w']; simpl.
  - destruct (run_tasks_tables task_raises (tasks w') (log EvResponse w')) as [Hb Hr].
    rewrite Hb, Hr. split; reflexivity.
  - split; reflexivity.
Qed.

Lemma serve_consistent {A} (task_raises : Task -> bool) (dump : A -> json)
  (handler : M A) (w : World) :
  (forall w0, store_consistent w0 -> store_consistent (snd (handler w0))) ->
  store_consistent w -> store_consistent (snd (serve task_raises dump handler w)).
Proof.
  intros Hh Hw. destruct (serve_tables task_raises dump handler w) as [Hb Hr].
  apply (store_consistent_tables _ _ Hb Hr). apply Hh.
  apply (store_consistent_tables _ w); [reflexivity | reflexivity | exact Hw].
Qed.

Lemma app_consistent (task_raises : Task -> bool) (req : Request) (w : World) :
  store_consistent w -> store_consistent (snd (app task_raises req w)).
Proof.
  intros Hw.
  destruct req;
    unfold app, post_books, post_books_reviews, get_books, get_books_reviews,
      put_books, put_reviews, delete_books, delete_reviews;
    apply serve_consistent; try exact Hw.
  - intros w0. apply create_book_consistent.
  - intros w0. apply create_review_consistent.
  - intros w0 H0. exact H0.
  - intros w0 H0. unfold read_reviews, bind, query_reviews_of_book, raise, ret.
    destruct (filter _ (reviews w0)); exact H0.
  - intros w0. apply update_book_consistent.
  - intros w0. apply update_review_consistent.
  - intros w0. apply delete_book_consistent.
  - intros w0. apply delete_review_consistent.
Qed.

(** X9: the requests keep the two tables consistent.  From a world where
    the ids of each table are unique and at least 1 and every review's
    [book_id] is NULL or the id of a stored book, every sequence of
    requests to the eight routes, whatever the tasks do, ends in such a
    world again; a fresh database is such a world. *)
Theorem requests_keep_store_consistent
  (task_raises : Task -> bool) (reqs : list Request) (w : World)
  (Hw : store_consistent w) :
  store_consistent (run_requests task_raises reqs w).
Proof.
  revert w Hw. induction reqs as [|req reqs IH]; intros w Hw; simpl.
  - exact Hw.
  - apply IH. apply app_consistent. exact Hw.
Qed.

Lemma requests_keep_store_consistent_witness :
  store_consistent
    (run_requests (fun _ => false)
       [POST_books (mkBookCreate "Dune" "Herbert" 1965);
        POST_books_reviews 1 (mkReviewCreate "Great" 5);
        PUT_reviews 1 (mkReviewCreate "Good" 4);
        DELETE_books 1;
        POST_books (mkBookCreate "Emma" "Austen" 1815)]
       empty_world).
Proof.
  apply requests_keep_store_consistent.
  unfold store_consistent. simpl. repeat split; constructor.
Defined.

(** ** Responses *)

Lemma handler_raise_unchanged (req : Request) :
  forall w,
    match req with
    | POST_books book =>
        exists a w', create_book book w = (Ok a, w')
    | GET_books author publication_year =>
        exists a w', read_books author publication_year w = (Ok a, w')
    | POST_books_reviews book_id review =>
        (exists a w', create_review book_id review w = (Ok a, w'))
        \/ exists e, create_review book_id review w = (Raise e, w) /\ status_code e = 404
    | GET_books_reviews book_id =>
        (exists a, read_reviews book_id w = (Ok a, w))
        \/ exists e, read_reviews book_id w = (Raise e, w) /\ status_code e = 404
    | PUT_books book_id book =>
        (exists a w', update_book book_id book w = (Ok a, w'))
        \/ exists e, update_book book_id book w = (Raise e, w) /\ status_code e = 404
    | PUT_reviews review_id review =>
        (exists a w', update_review review_id review w = (Ok a, w'))
        \/ exists e, update_review review_id review w = (Raise e, w)
                     /\ status_code e = 404
    | DELETE_books book_id =>
        (exists a w', delete_book book_id w = (Ok a, w'))
        \/ exists e, delete_book book_id w = (Raise e, w) /\ status_code e = 404
    | DELETE_reviews review_id =>
        (exists a w', delete_review review_id w = (Ok a, w'))
        \/ exists e, delete_review review_id w = (Raise e, w) /\ status_code e = 404
    end.
Proof.
  intros w. destruct req;
    unfold create_book, create_review, read_books, read_reviews, update_book,
      update_review, delete_book, delete_review, bind, query_book_first,
      query_review_first, query_reviews_of_book, raise, ret.
  - eexists. eexists. reflexivity.
  - destruct (find _ (books w));
      [left; eexists; eexists; reflexivity | right; eexists; split; reflexivity].
  - eexists. eexists. reflexivity.
  - destruct (filter _ (reviews w));
      [right; eexists; split; reflexivity | left; eexists; reflexivity].
  - destruct (find _ (books w));
      [left; eexists; eexists; reflexivity | right; eexists; split; reflexivity].
  - destruct (find _ (reviews w));
      [left; eexists; eexists; reflexivity | right; eexists; split; reflexivity].
  - destruct (find _ (books w));
      [left; eexists; eexists; reflexivity | right; eexists; split; reflexivity].
  - destruct (find _ (reviews w));
      [left; eexists; eexists; reflexivity | right; eexists; split; reflexivity].
Qed.

Lemma serve_ok {A} (task_raises : Task -> bool) (dump : A -> json)
  (handler : M A) (w : World) (a : A) (w' : World) :
  handler (set_tasks [] w) = (Ok a, w') ->
  serve task_raises dump handler w
  = (mkResponse 200 (dump a), run_tasks task_raises (tasks w') (log EvResponse w')).
Proof. intros H. unfold serve. rewrite H. reflexivity. Qed.

Lemma serve_raise {A} (task_raises : Task -> bool) (dump : A -> json)
  (handler : M A) (w : World) (e : HTTPException) :
  handler (set_tasks [] w) = (Raise e, set_tasks [] w) ->
  serve task_raises dump handler w
  = (http_exception_response e, log EvResponse (set_tasks [] w)).
Proof. intros H. unfold serve. rewrite H. reflexivity. Qed.

Ltac unfold_routes :=
  unfold app, post_books, post_books_reviews, get_books, get_books_reviews,
    put_books, put_reviews, delete_books, delete_reviews.

Ltac settle_response H :=
  match type of H with
  | exists a w', _ = (Ok a, w') =>
      let a := fresh "a" in
      let w' := fresh "w'" in
      destruct H as [a [w' H]];
      rewrite (serve_ok _ _ _ _ _ _ H); cbn [fst snd response_status];
      split; [left; reflexivity | intros Hne; exfalso; apply Hne; reflexivity]
  | exists a, _ = (Ok a, _) =>
      let a := fresh "a" in
      destruct H as [a H];
      rewrite (serve_ok _ _ _ _ _ _ H); cbn [fst snd response_status];
      split; [left; reflexivity | intros Hne; exfalso; apply Hne; reflexivity]
  | exists e, _ = (Raise e, _) /\ _ =>
      let e := fresh "e" in
      let Hs := fresh "Hs" in
      destruct H as [e [H Hs]];
      rewrite (serve_raise _ _ _ _ _ H);
      cbn [fst snd response_status response_body http_exception_response];
      split; [right; exact Hs
             | intros _; repeat split; exists (detail e); reflexivity]
  end.

(** X10: a request whose body passed validation and whose integers fit
    an SQLite INTEGER is answered 200 or 404 (a body that fails validation
    is answered 422 before any handler runs, and is no [Request]).  An
    answer to such a request that is not a 200 is the 404 of an
    [HTTPException], whose body is the object with the one field "detail";
    such a request has changed neither table and printed nothing. *)
Theorem response_is_200_or_404_and_404_writes_nothing
  (task_raises : Task -> bool) (req : Request) (w : World)
  (Hfits : request_fits req) :
  (response_status (fst (app task_raises req w)) = 200
   \/ response_status (fst (app task_raises req w)) = 404)
  /\ (response_status (fst (app task_raises req w)) <> 200 ->
        books (snd (app task_raises req w)) = books w
        /\ reviews (snd (app task_raises req w)) = reviews w
        /\ stdout (snd (app task_raises req w)) = stdout w
        /\ exists d,
             response_body (fst (app task_raises req w)) = JObj [("detail", JStr d)]).
Proof.
  clear Hfits.
  pose proof (handler_raise_unchanged req (set_tasks [] w)) as H.
  destruct req; unfold_routes; cbn beta iota in H;
    try (destruct H as [H|H]); settle_response H.
Qed.

Lemma response_is_200_or_404_and_404_writes_nothing_witness :
  (response_status (fst (app (fun _ => false) (DELETE_books 7) reviewed_world)) = 200
   \/ response_status (fst (app (fun _ => false) (DELETE_books 7) reviewed_world)) = 404)
  /\ (response_status (fst (app (fun _ => false) (DELETE_books 7) reviewed_world)) <> 200 ->
        books (snd (app (fun _ => false) (DELETE_books 7) reviewed_world))
        = books reviewed_world
        /\ reviews (snd (app (fun _ => false) (DELETE_books 7) reviewed_world))
           = reviews reviewed_world
        /\ stdout (snd (app (fun _ => false) (DELETE_books 7) reviewed_world))
           = stdout reviewed_world
        /\ exists d,
             response_body (fst (app (fun _ => false) (DELETE_books 7) reviewed_world))
             = JObj [("detail", JStr d)]).
Proof.
  apply (response_is_200_or_404_and_404_writes_nothing (fun _ => false)
           (DELETE_books 7) reviewed_world).
  simpl. fits.
Defined.

(** X11: what is printed is the confirmation of a created review, and
    nothing else.  A request that is not a POST of a review leaves the
    output as it was, and so does a POST of a review for a book that is not
    stored.  A POST of a review for a stored book, the book id and the
    rating fitting an SQLite INTEGER, creates the review; if its task does
    not raise, exactly one line is added to the output, the confirmation
    with the id of the created review, and if the task raises the output is
    as it was. *)
Theorem only_a_created_review_prints
  (task_raises : Task -> bool) (req : Request)
  (book_id : Z) (review : ReviewCreate) (w : World) :
  ((forall book_id' review', req <> POST_books_reviews book_id' review') ->
   stdout (snd (app task_raises req w)) = stdout w)
  /\ ((forall b, In b (books w) -> Book_id b <> book_id) ->
      stdout (snd (app task_raises (POST_books_reviews book_id review) w)) = stdout w)
  /\ ((exists b, In b (books w) /\ Book_id b = book_id) ->
      sqlite_integer book_id ->
      sqlite_integer (ReviewCreate_rating review) ->
      exists r,
        fst (create_review book_id review w) = Ok r
        /\ (task_raises (mkTask r) = false ->
            stdout (snd (app task_raises (POST_books_reviews book_id review) w))
            = stdout w
              ++ [("Simulating email confirmation for review id "
                     ++ NilZero.string_of_int (Z.to_int (Review_id r)))%string])
        /\ (task_raises (mkTask r) = true ->
            stdout (snd (app task_raises (POST_books_reviews book_id review) w))
            = stdout w)).
Proof.
  repeat apply conj.
  - intros Hother. destruct req; unfold_routes; unfold serve.
    + reflexivity.
    + exfalso. exact (Hother book_id0 review0 eq_refl).
    + reflexivity.
    + unfold read_reviews, bind, query_reviews_of_book.
      destruct (filter _ (reviews (set_tasks [] w))); reflexivity.
    + unfold update_book, bind, query_book_first.
      destruct (find _ (books (set_tasks [] w))); reflexivity.
    + unfold update_review, bind, query_review_first.
      destruct (find _ (reviews (set_tasks [] w))); reflexivity.
    + unfold delete_book, bind, query_book_first.
      destruct (find _ (books (set_tasks [] w))); reflexivity.
    + unfold delete_review, bind, query_review_first.
      destruct (find _ (reviews (set_tasks [] w))); reflexivity.
  - intros Habs. unfold_routes. unfold serve.
    rewrite (create_review_absent book_id review (set_tasks [] w) Habs).
    reflexivity.
  - intros Hex _ _. exists (inserted_review book_id review w).
    rewrite (create_review_run book_id review w Hex).
    split; [reflexivity|].
    unfold_routes. unfold serve.
    rewrite (create_review_run book_id review (set_tasks [] w) Hex).
    split; intros T; simpl;
      change (inserted_review book_id review (set_tasks [] w))
        with (inserted_review book_id review w);
      rewrite T; reflexivity.
Qed.

Lemma only_a_created_review_prints_witness :
  exists r,
    fst (create_review 1 (mkReviewCreate "Great" 5) dune_world) = Ok r
    /\ stdout (snd (app (fun _ => false)
                      (POST_books_reviews 1 (mkReviewCreate "Great" 5)) dune_world))
       = stdout dune_world
         ++ [("Simulating email confirmation for review id "
                ++ NilZero.string_of_int (Z.to_int (Review_id r)))%string].
Proof.
  destruct (only_a_created_review_prints (fun _ => false) (GET_books None None)
              1 (mkReviewCreate "Great" 5) dune_world) as [_ [_ H]].
  destruct H as [r [Hr [Hp _]]].
  - exists dune. split; [left; reflexivity | reflexivity].
  - fits.
  - simpl. fits.
  - exists r. split; [exact Hr | apply Hp; reflexivity].
Defined.

(** ** The tests *)

Lemma test_create_book_run (w : World) :
  fst (test_create_book w) = true
  /\ books (snd (test_create_book w))
     = books w ++ [inserted_book (mkBookCreate "Test Book" "Test Author" 2021) w]
  /\ reviews (snd (test_create_book w)) = reviews w.
Proof. repeat split. Qed.

Lemma test_read_books_run (w : World) :
  fst (test_read_books w) = true
  /\ books (snd (test_read_books w)) = books w
  /\ reviews (snd (test_read_books w)) = reviews w.
Proof. repeat split. Qed.

Lemma test_create_review_run (w : World) :
  (fst (test_create_review w) = true <-> exists b, In b (books w) /\ Book_id b = 1)
  /\ books (snd (test_create_review w)) = books w
  /\ ((exists b, In b (books w) /\ Book_id b = 1) ->
      reviews (snd (test_create_review w))
      = reviews w ++ [inserted_review 1 (mkReviewCreate "Great book!" 5) w]).
Proof.
  unfold test_create_review, client. unfold_routes. unfold serve.
  destruct (book_present_or_absent 1 (books w)) as [Hex|Habs].
  - rewrite (create_review_run 1 _ (set_tasks [] w) Hex). simpl.
    repeat split; auto.
  - rewrite (create_review_absent 1 _ (set_tasks [] w) Habs). simpl.
    repeat split.
    + discriminate.
    + intros [b [Hin Hid]]. exfalso. exact (Habs b Hin Hid).
    + intros [b [Hin Hid]]. exfalso. exact (Habs b Hin Hid).
Qed.

Lemma test_read_reviews_run (w : World) :
  fst (test_read_reviews w) = true
  <-> exists r, In r (reviews w) /\ Review_book_id r = Some 1.
Proof.
  unfold test_read_reviews, client. unfold_routes. unfold serve.
  unfold read_reviews, bind, query_reviews_of_book, raise, ret.
  cbn [reviews set_tasks].
  destruct (filter (fun r => fk_eqb (Review_book_id r) 1) (reviews w))
    as [|r l] eqn:E; simpl.
  - split; [discriminate|]. intros [r [Hin Hfk]]. exfalso.
    rewrite filter_nil_iff in E. specialize (E r Hin).
    apply fk_eqb_eq in Hfk. congruence.
  - split; [|reflexivity]. intros _. exists r.
    assert (Hr : In r (filter (fun r => fk_eqb (Review_book_id r) 1) (reviews w))).
    { rewrite E. left. reflexivity. }
    apply filter_In in Hr. destruct Hr as [Hin Hfk]. apply fk_eqb_eq in Hfk. auto.
Qed.

(** X12: what each test needs.  [test_create_book] and [test_read_books]
    pass in every state of the database; [test_create_review] passes
    exactly when a book of id 1 is stored, and [test_read_reviews] exactly
    when some stored review belongs to book 1. *)
Theorem tests_pass_exactly_when (w : World) :
  fst (test_create_book w) = true
  /\ fst (test_read_books w) = true
  /\ (fst (test_create_review w) = true
      <-> exists b, In b (books w) /\ Book_id b = 1)
  /\ (fst (test_read_reviews w) = true
      <-> exists r, In r (reviews w) /\ Review_book_id r = Some 1).
Proof.
  split; [reflexivity|]. split; [reflexivity|]. split.
  - apply test_create_review_run.
  - apply test_read_reviews_run.
Qed.

Lemma run_tests_results (w : World) :
  fst (run_tests w)
  = [fst (test_create_book w);
     fst (test_create_review (snd (test_create_book w)));
     fst (test_read_books (snd (test_create_review (snd (test_create_book w)))));
     fst (test_read_reviews
            (snd (test_read_books
                    (snd (test_create_review (snd (test_create_book w)))))))].
Proof.
  unfold run_tests.
  destruct (test_create_book w) as [r1 w1]. cbn [fst snd].
  destruct (test_create_review w1) as [r2 w2]. cbn [fst snd].
  destruct (test_read_books w2) as [r3 w3]. cbn [fst snd].
  destruct (test_read_reviews w3) as [r4 w4].
  reflexivity.
Qed.

(** X13: the four tests, run in the order of the file, all pass exactly
    when the database already holds a book of id 1 or is such that the
    book [test_create_book] inserts gets id 1; in particular they pass on
    a database without books.  Otherwise [test_create_review] fails. *)
Theorem run_tests_pass_exactly_when (w : World) :
  (fst (run_tests w) = [true; true; true; true]
   <-> (exists b, In b (books w) /\ Book_id b = 1)
       \/ next_rowid (map Book_id (books w)) = 1)
  /\ (books w = [] -> fst (run_tests w) = [true; true; true; true]).
Proof.
  assert (Hiff :
    fst (run_tests w) = [true; true; true; true]
    <-> (exists b, In b (books w) /\ Book_id b = 1)
        \/ next_rowid (map Book_id (books w)) = 1).
  { rewrite run_tests_results.
    destruct (test_create_book_run w) as [E1 [Hb1 Hr1]].
    destruct (test_create_review_run (snd (test_create_book w))) as [I2 [Hb2 Hr2]].
    destruct (test_read_books_run (snd (test_create_review (snd (test_create_book w)))))
      as [E3 [Hb3 Hr3]].
    pose proof (test_read_reviews_run
                  (snd (test_read_books
                          (snd (test_create_review (snd (test_create_book w))))))) as I4.
    rewrite E1, E3.
    assert (Hone :
      (exists b, In b (books (snd (test_create_book w))) /\ Book_id b = 1)
      <-> (exists b, In b (books w) /\ Book_id b = 1)
          \/ next_rowid (map Book_id (books w)) = 1).
    { rewrite Hb1. split.
      - intros [b [Hin Hid]]. apply in_app_or in Hin. destruct Hin as [Hin|[<-|[]]].
        + left. exists b. auto.
        + right. exact Hid.
      - intros [[b [Hin Hid]]|Hn].
        + exists b. split; [apply in_or_app; left; exact Hin | exact Hid].
        + eexists. split; [apply in_or_app; right; left; reflexivity | exact Hn]. }
    rewrite <- Hone. split.
    - intros [= H2 _]. apply I2. exact H2.
    - intros Hex. f_equal. f_equal; [apply I2; exact Hex|].
      f_equal. f_equal. apply I4. rewrite Hr3, (Hr2 Hex).
      eexists. split; [apply in_or_app; right; left; reflexivity | reflexivity]. }
  split; [exact Hiff|].
  intros Hnil. apply Hiff. right. rewrite Hnil. reflexivity.
Qed.

(** A database whose only book has id 5: the inserted book gets id 6, so
    book 1 is missing for the two tests about reviews. *)
Example run_tests_without_book_1 :
  fst (run_tests (mkWorld [mkBook 5 "Emma" "Austen" 1815] [] [] [] []))
  = [true; false; true; false].
Proof. reflexivity. Qed.

(** ** Unique ids *)

Lemma find_unique_book (l : list Book) (b : Book) :
  NoDup (map Book_id l) -> In b l ->
  find (fun x => Z.eqb (Book_id x) (Book_id b)) l = Some b.
Proof.
  induction l as [|a l IH]; simpl; intros Hnd Hin; [destruct Hin|].
  inversion Hnd as [|x xs Hnotin Hnd']; subst.
  destruct Hin as [->|Hin].
  - rewrite Z.eqb_refl. reflexivity.
  - destruct (Z.eqb_spec (Book_id a) (Book_id b)) as [E|_].
    + exfalso. apply Hnotin. rewrite E. apply in_map. exact Hin.
    + apply IH; assumption.
Qed.

Lemma find_unique_review (l : list Review) (r : Review) :
  NoDup (map Review_id l) -> In r l ->
  find (fun x => Z.eqb (Review_id x) (Review_id r)) l = Some r.
Proof.
  induction l as [|a l IH]; simpl; intros Hnd Hin; [destruct Hin|].
  inversion Hnd as [|x xs Hnotin Hnd']; subst.
  destruct Hin as [->|Hin].
  - rewrite Z.eqb_refl. reflexivity.
  - destruct (Z.eqb_spec (Review_id a) (Review_id r)) as [E|_].
    + exfalso. apply Hnotin. rewrite E. apply in_map. exact Hin.
    + apply IH; assumption.
Qed.

Lemma filter_other_ids_length {A} (f : A -> Z) (l : list A) (a : A) :
  NoDup (map f l) -> In a l ->
  (List.length (filter (fun x => negb (Z.eqb (f x) (f a))) l) + 1 = List.length l)%nat.
Proof.
  induction l as [|x l IH]; simpl; intros Hnd Hin; [destruct Hin|].
  inversion Hnd as [|y ys Hnotin Hnd']; subst.
  destruct Hin as [->|Hin].
  - rewrite Z.eqb_refl. simpl.
    assert (E : filter (fun x => negb (Z.eqb (f x) (f a))) l = l).
    { clear IH Hnd Hnd'. induction l as [|y l IHl]; simpl; [reflexivity|].
      destruct (Z.eqb_spec (f y) (f a)) as [E|_].
      - exfalso. apply Hnotin. left. exact E.
      - simpl. rewrite IHl; [reflexivity|].
        intros H. apply Hnotin. right. exact H. }
    rewrite E. lia.
  - destruct (Z.eqb_spec (f x) (f a)) as [E|_].
    + exfalso. apply Hnotin. rewrite E. apply in_map. exact Hin.
    + simpl. rewrite <- (IH Hnd' Hin). lia.
Qed.

(** X14: where the ids of a table are unique, every stored row of it is
    the one its id resolves to, for each table on its own.  With unique
    book ids, the lookup of the id of a stored book returns that book, and
    [update_book] on it returns that book with the submitted fields (the
    year fitting an SQLite INTEGER).  With unique review ids, the lookup of
    the id of a stored review returns that review, and [update_review] on
    it returns that review with the submitted text and rating (the rating
    fitting), the [book_id] kept. *)
Theorem stored_row_is_the_one_updated
  (b : Book) (r : Review) (book : BookCreate) (review : ReviewCreate) (w : World) :
  (NoDup (map Book_id (books w)) -> In b (books w) ->
   query_book_first (Book_id b) w = (Ok (Some b), w)
   /\ (sqlite_integer (BookCreate_publication_year book) ->
       fst (update_book (Book_id b) book w)
       = Ok (mkBook (Book_id b) (BookCreate_title book) (BookCreate_author book)
                    (BookCreate_publication_year book))))
  /\ (NoDup (map Review_id (reviews w)) -> In r (reviews w) ->
      query_review_first (Review_id r) w = (Ok (Some r), w)
      /\ (sqlite_integer (ReviewCreate_rating review) ->
          fst (update_review (Review_id r) review w)
          = Ok (mkReview (Review_id r) (Review_book_id r)
                         (ReviewCreate_text review) (ReviewCreate_rating review)))).
Proof.
  split.
  - intros Hbooks Hb.
    unfold update_book, bind, query_book_first.
    rewrite (find_unique_book _ _ Hbooks Hb). split; [reflexivity|].
    intros _. reflexivity.
  - intros Hreviews Hr.
    unfold update_review, bind, query_review_first.
    rewrite (find_unique_review _ _ Hreviews Hr). split; [reflexivity|].
    intros _. reflexivity.
Qed.

Lemma stored_row_is_the_one_updated_witness :
  query_book_first 1 dune_world = (Ok (Some dune), dune_world)
  /\ fst (update_book 1 (mkBookCreate "Emma" "Austen" 1815) dune_world)
     = Ok (mkBook 1 "Emma" "Austen" 1815).
Proof.
  destruct (stored_row_is_the_one_updated dune (mkReview 1 (Some 1) "Great" 5)
              (mkBookCreate "Emma" "Austen" 1815) (mkReviewCreate "Good" 4)
              dune_world) as [Hbook _].
  destruct Hbook as [Hq Hu].
  - simpl. constructor; [intros [] | constructor].
  - left. reflexivity.
  - split; [exact Hq|]. apply Hu. simpl. fits.
Defined.

(** X15: where the ids of a table are unique, a successful delete removes
    exactly one row of it, for each table on its own.  With unique book
    ids, after [delete_book] of a stored book the books table is one row
    shorter and the reviews table has the length it had.  With unique
    review ids, after [delete_review] of a stored review the reviews table
    is one row shorter and the books table is as it was. *)
Theorem delete_removes_exactly_one_row (b : Book) (r : Review) (w : World) :
  (NoDup (map Book_id (books w)) -> In b (books w) ->
   (List.length (books (snd (delete_book (Book_id b) w))) + 1
    = List.length (books w))%nat
   /\ List.length (reviews (snd (delete_book (Book_id b) w)))
      = List.length (reviews w))
  /\ (NoDup (map Review_id (reviews w)) -> In r (reviews w) ->
      (List.length (reviews (snd (delete_review (Review_id r) w))) + 1
       = List.length (reviews w))%nat
      /\ books (snd (delete_review (Review_id r) w)) = books w).
Proof.
  split.
  - intros Hbooks Hb.
    rewrite (delete_book_run (Book_id b) w) by (exists b; auto).
    simpl. split.
    + apply (filter_other_ids_length Book_id); assumption.
    + apply List.length_map.
  - intros Hreviews Hr.
    rewrite (delete_review_run (Review_id r) w) by (exists r; auto).
    simpl. split; [|reflexivity].
    apply (filter_other_ids_length Review_id); assumption.
Qed.

Lemma delete_removes_exactly_one_row_witness :
  (List.length (books (snd (delete_book 1 dune_world))) + 1
   = List.length (books dune_world))%nat
  /\ List.length (reviews (snd (delete_book 1 dune_world)))
     = List.length (reviews dune_world).
Proof.
  destruct (delete_removes_exactly_one_row dune (mkReview 1 (Some 1) "Great" 5)
              dune_world) as [Hbook _].
  apply Hbook.
  - simpl. constructor; [intros [] | constructor].
  - left. reflexivity.
Defined.

(** * Properties of the employee management classes *)

Import EMS.

(** ** Dictionaries *)

Lemma dict_get_none {V} (k : string) (d : dict V) :
  dict_get k d = None <-> ~ In k (map fst d).
Proof.
  induction d as [|[k' v] d IH]; simpl.
  - split; [intros _ [] | reflexivity].
  - destruct (String.eqb_spec k' k) as [E|E].
    + split; [discriminate|]. intros H. exfalso. apply H. left. exact E.
    + rewrite IH. split.
      * intros H [E'|Hin]; [contradiction | exact (H Hin)].
      * intros H Hin. apply H. right. exact Hin.
Qed.

Lemma dict_set_fresh {V} (k : string) (v : V) (d : dict V) :
  ~ In k (map fst d) -> dict_set k v d = d ++ [(k, v)].
Proof.
  induction d as [|[k' v'] d IH]; simpl; intros H; [reflexivity|].
  destruct (String.eqb_spec k' k) as [E|E].
  - exfalso. apply H. left. exact E.
  - rewrite IH; [reflexivity|]. intros Hin. apply H. right. exact Hin.
Qed.

Lemma dict_get_app_other {V} (k k' : string) (v : V) (d : dict V) :
  k' <> k -> dict_get k' (d ++ [(k, v)]) = dict_get k' d.
Proof.
  intros Hne. induction d as [|[k0 v0] d IH]; simpl.
  - destruct (String.eqb_spec k k'); [congruence | reflexivity].
  - destruct (String.eqb k0 k'); [reflexivity | exact IH].
Qed.

Lemma dict_get_app_new {V} (k : string) (v : V) (d : dict V) :
  ~ In k (map fst d) -> dict_get k (d ++ [(k, v)]) = Some v.
Proof.
  induction d as [|[k0 v0] d IH]; simpl; intros H.
  - rewrite String.eqb_refl. reflexivity.
  - destruct (String.eqb_spec k0 k) as [E|E].
    + exfalso. apply H. left. exact E.
    + apply IH. intros Hin. apply H. right. exact Hin.
Qed.

Lemma dict_get_del_other {V} (k k' : string) (d : dict V) :
  k' <> k -> dict_get k' (dict_del k d) = dict_get k' d.
Proof.
  intros Hne. induction d as [|[k0 v0] d IH]; simpl; [reflexivity|].
  destruct (String.eqb_spec k0 k) as [E|E]; simpl.
  - destruct (String.eqb_spec k0 k'); [congruence | reflexivity].
  - destruct (String.eqb k0 k'); [reflexivity | exact IH].
Qed.

Lemma dict_get_del_same {V} (k : string) (d : dict V) :
  NoDup (map fst d) -> dict_get k (dict_del k d) = None.
Proof.
  induction d as [|[k0 v0] d IH]; simpl; intros Hnd; [reflexivity|].
  inversion Hnd as [|x xs Hnotin Hnd']; subst.
  destruct (String.eqb_spec k0 k) as [E|E]; simpl.
  - apply dict_get_none. rewrite <- E. exact Hnotin.
  - destruct (String.eqb_spec k0 k); [contradiction | apply IH; exact Hnd'].
Qed.

Lemma dict_del_keys_incl {V} (k : string) (d : dict V) :
  forall x, In x (map fst (dict_del k d)) -> In x (map fst d).
Proof.
  induction d as [|[k0 v0] d IH]; simpl; intros x Hin; [exact Hin|].
  destruct (String.eqb k0 k); simpl in *; [right; exact Hin|].
  destruct Hin as [E|Hin]; [left; exact E | right; apply IH; exact Hin].
Qed.

Lemma dict_del_nodup {V} (k : string) (d : dict V) :
  NoDup (map fst d) -> NoDup (map fst (dict_del k d)).
Proof.
  induction d as [|[k0 v0] d IH]; simpl; intros Hnd; [constructor|].
  inversion Hnd as [|x xs Hnotin Hnd']; subst.
  destruct (String.eqb k0 k); simpl; [exact Hnd'|].
  constructor; [|apply IH; exact Hnd'].
  intros Hin. apply Hnotin. apply (dict_del_keys_incl k). exact Hin.
Qed.

(** ** Departments of a company *)

(** X16: [add_department] never replaces a department.  If the company
    has a department under the name of the new one, the company is
    returned as it was and "Department already exists." is printed;
    otherwise the department goes to the end of the company's departments
    under its name and nothing is printed.  Either way the department found
    under any other name is the one found before, and no object
    changes. *)
Theorem add_department_never_replaces (self : Company) (department : nat) (h : Heap) :
  (forall d0,
     dict_get (Department_name (department_at h department)) (Company_departments self)
     = Some d0 ->
     add_department self department h = (self, echo "Department already exists." h))
  /\ (dict_get (Department_name (department_at h department)) (Company_departments self)
      = None ->
      add_department self department h
      = (mkCompany (Company_departments self
                      ++ [(Department_name (department_at h department), department)]),
         h)
      /\ dict_get (Department_name (department_at h department))
           (Company_departments (fst (add_department self department h)))
         = Some department)
  /\ (forall k, k <> Department_name (department_at h department) ->
        dict_get k (Company_departments (fst (add_department self department h)))
        = dict_get k (Company_departments self))
  /\ department_objects (snd (add_department self department h)) = department_objects h
  /\ employee_objects (snd (add_department self department h)) = employee_objects h.
Proof.
  unfold add_department, dict_mem.
  destruct (dict_get (Department_name (department_at h department))
              (Company_departments self)) as [d0|] eqn:G; simpl.
  - repeat apply conj; try reflexivity. discriminate.
  - pose proof (proj1 (dict_get_none _ _) G) as Hfresh.
    rewrite (dict_set_fresh _ _ _ Hfresh).
    repeat apply conj; try reflexivity; try discriminate.
    + intros _. split; [reflexivity|]. apply dict_get_app_new. exact Hfresh.
    + intros k Hne. apply dict_get_app_other. exact Hne.
Qed.

(** X17: [remove_department] of a name the company does not have returns
    the company as it was and prints "Department not found."; of a name it
    has, it prints nothing and the name is no longer found (the keys of a
    dict being distinct), while every other name finds what it found
    before.  No object changes: the department itself is only forgotten by
    the company. *)
Theorem remove_department_forgets_only_that_name
  (self : Company) (department_name : string) (h : Heap)
  (Hkeys : NoDup (map fst (Company_departments self))) :
  (dict_get department_name (Company_departments self) = None ->
   remove_department self department_name h = (self, echo "Department not found." h))
  /\ (forall d0, dict_get department_name (Company_departments self) = Some d0 ->
        snd (remove_department self department_name h) = h
        /\ dict_get department_name
             (Company_departments (fst (remove_department self department_name h)))
           = None)
  /\ (forall k, k <> department_name ->
        dict_get k (Company_departments (fst (remove_department self department_name h)))
        = dict_get k (Company_departments self))
  /\ NoDup (map fst (Company_departments
                       (fst (remove_department self department_name h))))
  /\ department_objects (snd (remove_department self department_name h))
     = department_objects h.
Proof.
  unfold remove_department, dict_mem.
  destruct (dict_get department_name (Company_departments self)) as [d0|] eqn:G; simpl.
  - repeat apply conj; try reflexivity; try discriminate.
    + intros d1 _. split; [reflexivity|]. apply dict_get_del_same. exact Hkeys.
    + intros k Hne. apply dict_get_del_other. exact Hne.
    + apply dict_del_nodup. exact Hkeys.
  - repeat apply conj; try reflexivity; try (intros d1; discriminate).
    exact Hkeys.
Qed.

Lemma remove_department_forgets_only_that_name_witness :
  dict_get "Sales"
    (Company_departments
       (fst (remove_department (mkCompany [("Sales", 0%nat); ("Legal", 1%nat)]) "Sales"
               (mkHeap [] [mkDepartment "Sales" []; mkDepartment "Legal" []] [] []))))
  = None.
Proof.
  destruct (remove_department_forgets_only_that_name
              (mkCompany [("Sales", 0%nat); ("Legal", 1%nat)]) "Sales"
              (mkHeap [] [mkDepartment "Sales" []; mkDepartment "Legal" []] [] []))
    as [_ [H _]].
  - simpl. constructor.
    + intros [E|[]]. discriminate.
    + constructor; [intros [] | constructor].
  - apply (H 0%nat). reflexivity.
Defined.

(** ** Employees of a department *)

Lemma list_update_length {A} (l : list A) (n : nat) (f : A -> A) :
  List.length (list_update l n f) = List.length l.
Proof.
  revert n. induction l as [|x l IH]; intros [|n]; simpl; try reflexivity.
  rewrite IH. reflexivity.
Qed.

Lemma nth_list_update_same {A} (l : list A) (n : nat) (f : A -> A) (d : A) :
  (n < List.length l)%nat -> nth n (list_update l n f) d = f (nth n l d).
Proof.
  revert n. induction l as [|x l IH]; intros [|n]; simpl; intros H; try lia.
  - reflexivity.
  - apply IH. lia.
Qed.

Lemma nth_list_update_other {A} (l : list A) (n m : nat) (f : A -> A) (d : A) :
  m <> n -> nth m (list_update l n f) d = nth m l d.
Proof.
  revert n m. induction l as [|x l IH]; intros [|n] [|m]; simpl; intros H;
    try reflexivity; try congruence.
  apply IH. congruence.
Qed.

Lemma list_update_compose {A} (l : list A) (n : nat) (f g : A -> A) :
  list_update (list_update l n f) n g = list_update l n (fun x => g (f x)).
Proof.
  revert n. induction l as [|x l IH]; intros [|n]; simpl; try reflexivity.
  rewrite IH. reflexivity.
Qed.

Lemma list_update_fixed {A} (l : list A) (n : nat) (f : A -> A) (d : A) :
  f (nth n l d) = nth n l d -> list_update l n f = l.
Proof.
  revert n. induction l as [|x l IH]; intros [|n]; simpl; intros H;
    try reflexivity.
  - rewrite H. reflexivity.
  - rewrite (IH n H). reflexivity.
Qed.

Lemma existsb_eqb_iff (x : nat) (l : list nat) :
  existsb (fun y => Nat.eqb y x) l = true <-> In x l.
Proof.
  rewrite existsb_exists. split.
  - intros [y [Hin E]]. apply Nat.eqb_eq in E. subst. exact Hin.
  - intros Hin. exists x. split; [exact Hin | apply Nat.eqb_refl].
Qed.

Lemma list_remove_first (x : nat) (l : list nat) :
  In x l ->
  exists before after,
    l = before ++ x :: after /\ ~ In x before /\ list_remove x l = before ++ after.
Proof.
  induction l as [|y l IH]; simpl; intros Hin; [destruct Hin|].
  destruct (Nat.eqb_spec y x) as [E|E].
  - exists [], l. subst. repeat split. intros [].
  - destruct Hin as [Hy|Hin]; [contradiction|].
    destruct (IH Hin) as [before [after [H1 [H2 H3]]]].
    exists (y :: before), after. simpl. rewrite H3, <- H1. repeat split.
    intros [Hy|Hb]; [contradiction | exact (H2 Hb)].
Qed.

Lemma list_remove_absent (x : nat) (l : list nat) :
  ~ In x l -> list_remove x l = l.
Proof.
  induction l as [|y l IH]; simpl; intros H; [reflexivity|].
  destruct (Nat.eqb_spec y x) as [E|E].
  - exfalso. apply H. left. exact E.
  - rewrite IH; [reflexivity|]. intros Hin. apply H. right. exact Hin.
Qed.

Lemma list_remove_appended (x : nat) (l : list nat) :
  ~ In x l -> list_remove x (l ++ [x]) = l.
Proof.
  induction l as [|y l IH]; simpl; intros H.
  - rewrite Nat.eqb_refl. reflexivity.
  - destruct (Nat.eqb_spec y x) as [E|E].
    + exfalso. apply H. left. exact E.
    + rewrite IH; [reflexivity|]. intros Hin. apply H. right. exact Hin.
Qed.

Lemma department_after_set_employees (self : nat) (f : list nat -> list nat) (h : Heap) :
  (self < List.length (department_objects h))%nat ->
  department_at (set_employees self f h) self
  = mkDepartment (Department_name (department_at h self))
                 (f (Department_employees (department_at h self)))
  /\ (forall other, other <> self ->
        department_at (set_employees self f h) other = department_at h other).
Proof.
  intros Hself. unfold department_at, set_employees. simpl. split.
  - rewrite nth_list_update_same by exact Hself. reflexivity.
  - intros other Hne. apply nth_list_update_other. exact Hne.
Qed.

(** X18: [remove_employee] takes out one occurrence, the first.  For an
    employee that is not in the department it prints "Employee not found in
    this department." and changes no object.  For one that is, it prints
    nothing, the department keeps its name, and its employees are the
    former ones without the first occurrence of that employee, in the same
    order; every other department and every employee object is as
    before. *)
Theorem remove_employee_removes_first_occurrence (self employee : nat) (h : Heap)
  (Hself : (self < List.length (department_objects h))%nat) :
  (~ In employee (Department_employees (department_at h self)) ->
   remove_employee self employee h = echo "Employee not found in this department." h)
  /\ (In employee (Department_employees (department_at h self)) ->
      console (remove_employee self employee h) = console h
      /\ employee_objects (remove_employee self employee h) = employee_objects h
      /\ Department_name (department_at (remove_employee self employee h) self)
         = Department_name (department_at h self)
      /\ (exists before after,
            Department_employees (department_at h self) = before ++ employee :: after
            /\ ~ In employee before
            /\ Department_employees (department_at (remove_employee self employee h) self)
               = before ++ after)
      /\ (forall other, other <> self ->
            department_at (remove_employee self employee h) other
            = department_at h other)).
Proof.
  unfold remove_employee. split.
  - intros Hnot.
    destruct (existsb (fun y => Nat.eqb y employee)
                (Department_employees (department_at h self))) eqn:E; [|reflexivity].
    apply existsb_eqb_iff in E. contradiction.
  - intros Hin. rewrite (proj2 (existsb_eqb_iff _ _) Hin).
    destruct (department_after_set_employees self (list_remove employee) h Hself)
      as [Hd Ho].
    rewrite Hd. simpl.
    repeat apply conj; try reflexivity.
    + destruct (list_remove_first employee _ Hin) as [before [after H]].
      exists before, after. exact H.
    + exact Ho.
Qed.

Lemma remove_employee_removes_first_occurrence_witness :
  Department_employees
    (department_at
       (remove_employee 0 7
          (mkHeap [] [mkDepartment "Sales" [3; 7; 5; 7]%nat] [] [])) 0)
  = [3; 5; 7]%nat.
Proof.
  destruct (remove_employee_removes_first_occurrence 0 7
              (mkHeap [] [mkDepartment "Sales" [3; 7; 5; 7]%nat] [] []))
    as [_ H].
  - simpl. lia.
  - destruct H as [_ [_ [_ [[before [after [H1 [H2 H3]]]] _]]]].
    + simpl. right. left. reflexivity.
    + reflexivity.
Defined.

(** X19: [add_employee] followed by [remove_employee] of the same
    employee.  If the employee was not in the department, the heap is
    exactly what it was.  If it was, the occurrence that goes is the old
    first one, not the one just added: the employee ends up at the end of
    the list. *)
Theorem add_then_remove_employee (self employee : nat) (h : Heap)
  (Hself : (self < List.length (department_objects h))%nat) :
  (~ In employee (Department_employees (department_at h self)) ->
   remove_employee self employee (add_employee self employee h) = h)
  /\ (In employee (Department_employees (department_at h self)) ->
      exists before after,
        Department_employees (department_at h self) = before ++ employee :: after
        /\ ~ In employee before
        /\ Department_employees
             (department_at (remove_employee self employee (add_employee self employee h))
                self)
           = before ++ after ++ [employee]).
Proof.
  unfold add_employee.
  destruct (department_after_set_employees self (fun l => l ++ [employee]) h Hself)
    as [Hd _].
  assert (Hmem : existsb (fun y => Nat.eqb y employee)
                   (Department_employees
                      (department_at (set_employees self (fun l => l ++ [employee]) h) self))
                 = true).
  { rewrite Hd. simpl. apply existsb_eqb_iff. apply in_or_app. right. left. reflexivity. }
  unfold remove_employee. rewrite Hmem. split.
  - intros Hnot. unfold set_employees. simpl. rewrite list_update_compose. simpl.
    rewrite (list_update_fixed _ _ _ (mkDepartment "" [])).
    + destruct h. reflexivity.
    + fold (department_at h self). rewrite (list_remove_appended _ _ Hnot).
      destruct (department_at h self). reflexivity.
  - intros Hin.
    destruct (list_remove_first employee _ Hin) as [before [after [H1 [H2 H3]]]].
    exists before, after. split; [exact H1|]. split; [exact H2|].
    assert (Hlen : (self < List.length
                             (department_objects
                                (set_employees self (fun l => l ++ [employee]) h)))%nat).
    { unfold set_employees. simpl. rewrite list_update_length. exact Hself. }
    destruct (department_after_set_employees self (list_remove employee)
                (set_employees self (fun l => l ++ [employee]) h) Hlen) as [Hd2 _].
    rewrite Hd2, Hd. simpl. rewrite H1.
    rewrite <- app_assoc. simpl.
    clear -H2. induction before as [|y before IH]; simpl.
    + rewrite Nat.eqb_refl. reflexivity.
    + destruct (Nat.eqb_spec y employee) as [E|E].
      * exfalso. apply H2. left. exact E.
      * rewrite IH; [reflexivity|]. intros Hb. apply H2. right. exact Hb.
Qed.

Lemma add_then_remove_employee_witness :
  remove_employee 0 7
    (add_employee 0 7 (mkHeap [] [mkDepartment "Sales" [3; 5]%nat] [] []))
  = mkHeap [] [mkDepartment "Sales" [3; 5]%nat] [] [].
Proof.
  destruct (add_then_remove_employee 0 7
              (mkHeap [] [mkDepartment "Sales" [3; 5]%nat] [] [])) as [H _].
  - simpl. lia.
  - apply H. simpl. intros [E|[E|[]]]; discriminate.
Defined.

(** ** Loading and saving *)

Lemma list_update_ext {A} (l : list A) (n : nat) (f g : A -> A) :
  (forall x, f x = g x) -> list_update l n f = list_update l n g.
Proof.
  intros H. revert n. induction l as [|x l IH]; intros [|n]; simpl; try reflexivity.
  - rewrite H. reflexivity.
  - rewrite IH. reflexivity.
Qed.

Lemma load_employees_spec (department : nat) (department_name : string)
  (employee_names : list string) :
  forall h,
    (department < List.length (department_objects h))%nat ->
    employee_objects (load_employees department department_name employee_names h)
    = employee_objects h
      ++ loaded_employees department_name
           (List.length (Department_employees (department_at h department)))
           employee_names
    /\ department_objects (load_employees department department_name employee_names h)
       = list_update (department_objects h) department
           (fun d => mkDepartment (Department_name d)
                       (Department_employees d
                          ++ seq (List.length (employee_objects h))
                                 (List.length employee_names)))
    /\ console (load_employees department department_name employee_names h) = console h
    /\ files (load_employees department department_name employee_names h) = files h.
Proof.
  induction employee_names as [|n rest IH]; intros h Hd; simpl.
  - rewrite app_nil_r. repeat split.
    symmetry. apply (list_update_fixed _ _ _ (mkDepartment "" [])).
    rewrite app_nil_r. destruct (nth department (department_objects h) _). reflexivity.
  - unfold add_employee.
    set (h1 := mkHeap _ _ _ _).
    assert (Hd1 : (department < List.length (department_objects h1))%nat) by exact Hd.
    destruct (department_after_set_employees department
                (fun l => l ++ [List.length (employee_objects h)]) h1 Hd1) as [Hat _].
    assert (Hd2 : (department
                   < List.length
                       (department_objects
                          (set_employees department
                             (fun l => l ++ [List.length (employee_objects h)]) h1)))%nat).
    { unfold set_employees. simpl. rewrite list_update_length. exact Hd. }
    destruct (IH _ Hd2) as [He [Hds [Hc Hf]]].
    rewrite He, Hds, Hc, Hf, Hat. clear He Hds Hc Hf IH.
    unfold set_employees, h1, department_at. simpl.
    repeat split.
    + rewrite <- app_assoc. simpl. rewrite length_app. simpl.
      replace (List.length
                 (Department_employees
                    (nth department (department_objects h)
                       (mkDepartment "" []))) + 1)%nat
        with (S (List.length
                   (Department_employees
                      (nth department (department_objects h)
                         (mkDepartment "" []))))) by lia.
      reflexivity.
    + rewrite list_update_compose. apply list_update_ext. intros d. simpl.
      rewrite <- app_assoc. simpl. rewrite length_app. simpl.
      replace (List.length (employee_objects h) + 1)%nat
        with (S (List.length (employee_objects h))) by lia.
      reflexivity.
Qed.

Lemma loaded_employees_length (department_name : string) (start : nat)
  (employee_names : list string) :
  List.length (loaded_employees department_name start employee_names)
  = List.length employee_names.
Proof.
  revert start. induction employee_names as [|n rest IH]; intros start; simpl;
    [reflexivity | rewrite IH; reflexivity].
Qed.

Lemma loaded_employees_names (department_name : string) (start : nat)
  (employee_names : list string) :
  map Employee_name (loaded_employees department_name start employee_names)
  = employee_names.
Proof.
  revert start. induction employee_names as [|n rest IH]; intros start; simpl;
    [reflexivity | rewrite IH; reflexivity].
Qed.

Lemma loaded_employees_nth (department_name : string) (employee_names : list string) :
  forall start i n,
    nth_error employee_names i = Some n ->
    nth_error (loaded_employees department_name start employee_names) i
    = Some (mkEmployee n (Z.of_nat (start + i) + 1) "Employee" department_name).
Proof.
  induction employee_names as [|m rest IH]; intros start [|i] n H; simpl in *;
    try discriminate.
  - injection H as ->. rewrite Nat.add_0_r. reflexivity.
  - rewrite (IH (S start) i n H).
    replace (S start + i)%nat with (start + S i)%nat by lia. reflexivity.
Qed.

Lemma map_nth_appended {A} (E L : list A) (d : A) :
  map (fun a => nth a (E ++ L) d) (seq (List.length E) (List.length L)) = L.
Proof.
  revert E. induction L as [|x L IH]; intros E; simpl; [reflexivity|].
  rewrite nth_middle. f_equal.
  specialize (IH (E ++ [x])). rewrite length_app in IH. simpl in IH.
  replace (List.length E + 1)%nat with (S (List.length E)) in IH by lia.
  rewrite <- app_assoc in IH. exact IH.
Qed.

Lemma NoDup_snoc {A} (l : list A) (x : A) : NoDup l -> ~ In x l -> NoDup (l ++ [x]).
Proof.
  intros Hl Hx. apply NoDup_app.
  - exact Hl.
  - constructor; [intros [] | constructor].
  - intros a Ha [<-|[]]. exact (Hx Ha).
Qed.

Lemma load_department_step (k : string) (names : list string)
  (self : Company) (h : Heap) :
  company_wf self h -> ~ In k (map fst (Company_departments self)) ->
  add_department self (List.length (department_objects h)) (snd (Department_init k h))
  = (mkCompany (Company_departments self ++ [(k, List.length (department_objects h))]),
     snd (Department_init k h))
  /\ company_wf
       (mkCompany (Company_departments self ++ [(k, List.length (department_objects h))]))
       (load_employees (List.length (department_objects h)) k names
          (snd (Department_init k h)))
  /\ company_staff
       (mkCompany (Company_departments self ++ [(k, List.length (department_objects h))]))
       (load_employees (List.length (department_objects h)) k names
          (snd (Department_init k h)))
     = company_staff self h ++ [(k, loaded_employees k 0 names)]
  /\ console (load_employees (List.length (department_objects h)) k names
                (snd (Department_init k h))) = console h
  /\ files (load_employees (List.length (department_objects h)) k names
              (snd (Department_init k h))) = files h.
Proof.
  intros [Hnd Hall] Hfresh.
  set (d := List.length (department_objects h)).
  set (h1 := snd (Department_init k h)).
  assert (Hd1 : (d < List.length (department_objects h1))%nat).
  { unfold h1, d. simpl. rewrite length_app. simpl. lia. }
  assert (Hat1 : department_at h1 d = mkDepartment k []).
  { unfold department_at, h1, d. simpl. apply nth_middle. }
  destruct (load_employees_spec d k names h1 Hd1) as [He [Hds [Hc Hf]]].
  rewrite Hat1 in He. simpl in He.
  set (h2 := load_employees d k names h1) in *.
  assert (Hnew : department_at h2 d
                 = mkDepartment k (seq (List.length (employee_objects h))
                                       (List.length names))).
  { unfold department_at. rewrite Hds.
    rewrite nth_list_update_same by exact Hd1.
    fold (department_at h1 d). rewrite Hat1. reflexivity. }
  assert (Hold : forall r, (r < d)%nat -> department_at h2 r = department_at h r).
  { intros r Hr. unfold department_at. rewrite Hds.
    rewrite nth_list_update_other by lia.
    unfold h1. simpl. apply app_nth1. exact Hr. }
  assert (Hemp : forall a, (a < List.length (employee_objects h))%nat ->
                           employee_at h2 a = employee_at h a).
  { intros a Ha. unfold employee_at. rewrite He. apply app_nth1. exact Ha. }
  assert (Hlen2 : List.length (employee_objects h2)
                  = (List.length (employee_objects h) + List.length names)%nat).
  { rewrite He, length_app, loaded_employees_length. reflexivity. }
  assert (Hdlen2 : List.length (department_objects h2) = S d).
  { rewrite Hds, list_update_length. unfold h1, d. simpl.
    rewrite length_app. simpl. lia. }
  split.
  { unfold add_department. rewrite Hat1. simpl. unfold dict_mem.
    rewrite (proj2 (dict_get_none k (Company_departments self)) Hfresh). simpl.
    rewrite (dict_set_fresh _ _ _ Hfresh). reflexivity. }
  split.
  { unfold company_wf. simpl. rewrite map_app. simpl. split.
    - apply NoDup_snoc; assumption.
    - apply Forall_app. split.
      + rewrite Forall_forall in *. intros kv Hin.
        destruct (Hall kv Hin) as [Hr [Hn Hes]].
        rewrite (Hold _ Hr). repeat split.
        * rewrite Hdlen2. fold d in Hr. lia.
        * exact Hn.
        * rewrite Forall_forall in *. intros a Ha. specialize (Hes a Ha).
          rewrite Hlen2. lia.
      + constructor; [|constructor]. simpl. rewrite Hnew. simpl. repeat split.
        * rewrite Hdlen2. lia.
        * apply Forall_forall. intros a Ha. apply in_seq in Ha. rewrite Hlen2. lia. }
  split.
  { unfold company_staff. simpl. rewrite map_app. simpl. f_equal.
    - apply map_ext_in. intros kv Hin. rewrite Forall_forall in Hall.
      destruct (Hall kv Hin) as [Hr [_ Hes]].
      rewrite (Hold _ Hr). f_equal. apply map_ext_in. intros a Ha.
      rewrite Forall_forall in Hes. apply Hemp. apply Hes. exact Ha.
    - rewrite Hnew. simpl. f_equal. f_equal.
      unfold employee_at. rewrite He.
      rewrite <- (loaded_employees_length k 0 names).
      apply map_nth_appended. }
  split; [rewrite Hc | rewrite Hf]; reflexivity.
Qed.

Lemma load_departments_spec (data : dict (list string)) :
  forall self h,
    company_wf self h ->
    NoDup (map fst data) ->
    (forall k, In k (map fst data) -> ~ In k (map fst (Company_departments self))) ->
    company_wf (fst (load_departments data self h)) (snd (load_departments data self h))
    /\ company_staff (fst (load_departments data self h))
         (snd (load_departments data self h))
       = company_staff self h
         ++ map (fun kv => (fst kv, loaded_employees (fst kv) 0 (snd kv))) data
    /\ console (snd (load_departments data self h)) = console h
    /\ files (snd (load_departments data self h)) = files h.
Proof.
  induction data as [|[k names] rest IH]; intros self h Hwf Hnd Hdis.
  - simpl. rewrite app_nil_r. split; [exact Hwf|]. repeat split.
  - cbn [load_departments Department_init].
    inversion Hnd as [|x xs Hk Hnd']; subst.
    assert (Hfresh : ~ In k (map fst (Company_departments self))).
    { apply Hdis. left. reflexivity. }
    destruct (load_department_step k names self h Hwf Hfresh)
      as [Hadd [Hwf2 [Hstaff [Hc Hf]]]].
    cbn [Department_init snd] in Hadd, Hwf2, Hstaff, Hc, Hf.
    rewrite Hadd.
    match goal with
    | |- context [load_departments rest ?c ?h2] =>
        destruct (IH c h2) as [Hwf' [Hstaff' [Hc' Hf']]]
    end.
    + exact Hwf2.
    + exact Hnd'.
    + intros k' Hin. cbn [Company_departments]. rewrite map_app. simpl.
      intros Hin'. apply in_app_or in Hin'. destruct Hin' as [Hin'|[E|[]]].
      * apply (Hdis k'); [right; exact Hin | exact Hin'].
      * apply Hk. simpl in E. rewrite E. exact Hin.
    + split; [exact Hwf'|]. split.
      * rewrite Hstaff', Hstaff, <- app_assoc. reflexivity.
      * split; [rewrite Hc', Hc | rewrite Hf', Hf]; reflexivity.
Qed.

Lemma company_view_of_staff (self : Company) (h : Heap) :
  company_view self h
  = map (fun kv => (fst kv, map Employee_name (snd kv))) (company_staff self h).
Proof.
  unfold company_view, company_staff. rewrite map_map. apply map_ext.
  intros kv. simpl. rewrite map_map. reflexivity.
Qed.

Lemma fold_dict_set_fresh {B V} (key : B -> string) (val : B -> V) (l : list B) :
  forall acc : dict V,
    NoDup (map key l) ->
    (forall k, In k (map key l) -> ~ In k (map fst acc)) ->
    fold_left (fun data x => dict_set (key x) (val x) data) l acc
    = acc ++ map (fun x => (key x, val x)) l.
Proof.
  induction l as [|x l IH]; intros acc Hnd Hdis; simpl.
  - rewrite app_nil_r. reflexivity.
  - inversion Hnd as [|y ys Hx Hnd']; subst.
    rewrite dict_set_fresh by (apply Hdis; left; reflexivity).
    rewrite IH.
    + rewrite <- app_assoc. reflexivity.
    + exact Hnd'.
    + intros k Hin. rewrite map_app. simpl. intros Hin'.
      apply in_app_or in Hin'. destruct Hin' as [Hin'|[E|[]]].
      * apply (Hdis k); [right; exact Hin | exact Hin'].
      * apply Hx. rewrite E. exact Hin.
Qed.

Lemma company_data_wf (self : Company) (h : Heap) :
  company_wf self h -> company_data self h = company_view self h.
Proof.
  intros [Hnd Hall]. unfold company_data, company_view.
  assert (E : forall l acc,
            Forall (fun kv => Department_name (department_at h (snd kv)) = fst kv) l ->
            fold_left
              (fun data kv =>
                 dict_set (Department_name (department_at h (snd kv)))
                   (map (fun emp => Employee_name (employee_at h emp))
                        (Department_employees (department_at h (snd kv)))) data) l acc
            = fold_left
                (fun data (kv : string * nat) =>
                   dict_set (fst kv)
                     (map (fun emp => Employee_name (employee_at h emp))
                          (Department_employees (department_at h (snd kv)))) data) l acc).
  { induction l as [|kv l IHl]; intros acc Hl; simpl; [reflexivity|].
    inversion Hl; subst. rewrite H1. apply IHl. assumption. }
  rewrite E.
  - rewrite (fold_dict_set_fresh fst
               (fun kv : string * nat =>
                  map (fun emp => Employee_name (employee_at h emp))
                      (Department_employees (department_at h (snd kv))))).
    + reflexivity.
    + exact Hnd.
    + intros k _ [].
  - apply (Forall_impl _ (P := fun kv =>
             (snd kv < List.length (department_objects h))%nat
             /\ Department_name (department_at h (snd kv)) = fst kv
             /\ Forall (fun a => (a < List.length (employee_objects h))%nat)
                       (Department_employees (department_at h (snd kv)))));
      [|exact Hall].
    intros kv [_ [Hn _]]. exact Hn.
Qed.

Lemma dict_set_keys_incl {V} (k : string) (v : V) (d : dict V) :
  forall x, In x (map fst (dict_set k v d)) -> x = k \/ In x (map fst d).
Proof.
  induction d as [|[k0 v0] d IH]; simpl; intros x Hin.
  - destruct Hin as [E|[]]. left. symmetry. exact E.
  - destruct (String.eqb k0 k); simpl in Hin.
    + right. exact Hin.
    + destruct Hin as [E|Hin]; [right; left; exact E|].
      destruct (IH x Hin) as [E|Hx]; [left; exact E | right; right; exact Hx].
Qed.

Lemma dict_set_keys {V} (k : string) (v : V) (d : dict V) :
  NoDup (map fst d) -> NoDup (map fst (dict_set k v d)).
Proof.
  induction d as [|[k0 v0] d IH]; simpl; intros Hnd.
  - constructor; [intros [] | constructor].
  - inversion Hnd as [|x xs Hk Hnd']; subst.
    destruct (String.eqb_spec k0 k) as [E|E]; simpl.
    + exact Hnd.
    + constructor; [|apply IH; exact Hnd'].
      intros Hin. destruct (dict_set_keys_incl k v d k0 Hin) as [E'|Hin'].
      * contradiction.
      * exact (Hk Hin').
Qed.

Lemma company_data_keys (self : Company) (h : Heap) :
  NoDup (map fst (company_data self h)).
Proof.
  unfold company_data.
  assert (H : forall l (acc : dict (list string)),
            NoDup (map fst acc) ->
            NoDup (map fst
                     (fold_left
                        (fun data (kv : string * nat) =>
                           dict_set (Department_name (department_at h (snd kv)))
                             (map (fun emp => Employee_name (employee_at h emp))
                                  (Department_employees (department_at h (snd kv))))
                             data) l acc))).
  { induction l as [|kv l IH]; intros acc Hacc; simpl; [exact Hacc|].
    apply IH. apply dict_set_keys. exact Hacc. }
  apply H. constructor.
Qed.

Lemma company_init_wf (h : Heap) : company_wf Company_init h.
Proof. split; constructor. Qed.

Lemma dict_get_set_same {V} (k : string) (v : V) (d : dict V) :
  dict_get k (dict_set k v d) = Some v.
Proof.
  induction d as [|[k0 v0] d IH]; simpl.
  - rewrite String.eqb_refl. reflexivity.
  - destruct (String.eqb k0 k) eqn:E; simpl; rewrite E; [reflexivity | exact IH].
Qed.

Lemma add_department_objects (self : Company) (department : nat) (h : Heap) :
  department_objects (snd (add_department self department h)) = department_objects h
  /\ employee_objects (snd (add_department self department h)) = employee_objects h
  /\ files (snd (add_department self department h)) = files h
  /\ (forall k d0, dict_get k (Company_departments self) = Some d0 ->
        dict_get k (Company_departments (fst (add_department self department h)))
        = Some d0).
Proof.
  unfold add_department, dict_mem.
  destruct (dict_get (Department_name (department_at h department))
              (Company_departments self)) as [d1|] eqn:G; simpl.
  - repeat split. intros k d0 H. exact H.
  - repeat split. intros k d0 H.
    pose proof (proj1 (dict_get_none _ _) G) as Hfresh.
    rewrite (dict_set_fresh _ _ _ Hfresh).
    rewrite dict_get_app_other; [exact H|].
    intros E. subst k. rewrite G in H. discriminate.
Qed.

Lemma load_step_frame (k : string) (names : list string) (self : Company) (h : Heap) :
  (List.length (department_objects h)
   <= List.length
        (department_objects
           (load_employees (List.length (department_objects h)) k names
              (snd (add_department self (List.length (department_objects h))
                      (snd (Department_init k h)))))))%nat
  /\ (List.length (employee_objects h)
      <= List.length
           (employee_objects
              (load_employees (List.length (department_objects h)) k names
                 (snd (add_department self (List.length (department_objects h))
                         (snd (Department_init k h)))))))%nat
  /\ (forall d0, (d0 < List.length (department_objects h))%nat ->
        department_at
          (load_employees (List.length (department_objects h)) k names
             (snd (add_department self (List.length (department_objects h))
                     (snd (Department_init k h))))) d0
        = department_at h d0)
  /\ (forall a, (a < List.length (employee_objects h))%nat ->
        employee_at
          (load_employees (List.length (department_objects h)) k names
             (snd (add_department self (List.length (department_objects h))
                     (snd (Department_init k h))))) a
        = employee_at h a)
  /\ files (load_employees (List.length (department_objects h)) k names
              (snd (add_department self (List.length (department_objects h))
                      (snd (Department_init k h)))))
     = files h
  /\ console (load_employees (List.length (department_objects h)) k names
                (snd (add_department self (List.length (department_objects h))
                        (snd (Department_init k h)))))
     = console (snd (add_department self (List.length (department_objects h))
                       (snd (Department_init k h)))).
Proof.
  set (d := List.length (department_objects h)).
  set (h1 := snd (Department_init k h)).
  destruct (add_department_objects self d h1) as [Hdo [Heo [Hfo _]]].
  set (h1' := snd (add_department self d h1)) in *.
  assert (Hd : (d < List.length (department_objects h1'))%nat).
  { rewrite Hdo. unfold h1, d. simpl. rewrite length_app. simpl. lia. }
  destruct (load_employees_spec d k names h1' Hd) as [He [Hds [Hc Hf]]].
  repeat apply conj.
  - rewrite Hds, list_update_length, Hdo. unfold h1. simpl. rewrite length_app. lia.
  - rewrite He, length_app, Heo. unfold h1. simpl. lia.
  - intros d0 Hd0. unfold department_at. rewrite Hds.
    rewrite nth_list_update_other by (fold d in Hd0; lia).
    rewrite Hdo. unfold h1. simpl. apply app_nth1. exact Hd0.
  - intros a Ha. unfold employee_at. rewrite He, Heo. unfold h1. simpl.
    apply app_nth1. exact Ha.
  - rewrite Hf, Hfo. reflexivity.
  - exact Hc.
Qed.

Lemma load_departments_frame (data : dict (list string)) :
  forall self h,
    (List.length (department_objects h)
     <= List.length (department_objects (snd (load_departments data self h))))%nat
    /\ (List.length (employee_objects h)
        <= List.length (employee_objects (snd (load_departments data self h))))%nat
    /\ (forall d0, (d0 < List.length (department_objects h))%nat ->
          department_at (snd (load_departments data self h)) d0 = department_at h d0)
    /\ (forall a, (a < List.length (employee_objects h))%nat ->
          employee_at (snd (load_departments data self h)) a = employee_at h a)
    /\ (forall k d0, dict_get k (Company_departments self) = Some d0 ->
          dict_get k (Company_departments (fst (load_departments data self h)))
          = Some d0)
    /\ files (snd (load_departments data self h)) = files h.
Proof.
  induction data as [|[k names] rest IH]; intros self h.
  - simpl. repeat split; auto.
  - cbn [load_departments].
    destruct (load_step_frame k names self h) as [L1 [L2 [Fd [Fe [Ff _]]]]].
    destruct (add_department_objects self (List.length (department_objects h))
                (snd (Department_init k h))) as [_ [_ [_ Hget]]].
    cbn [Department_init snd] in *.
    destruct (add_department self (List.length (department_objects h))
                (mkHeap (employee_objects h)
                   (department_objects h ++ [mkDepartment k []])
                   (console h) (files h))) as [self1 h1'] eqn:A.
    cbn [fst snd] in *.
    match goal with
    | |- context [load_departments rest self1 ?h2] =>
        destruct (IH self1 h2) as [M1 [M2 [Gd [Ge [Gk Gf]]]]]
    end.
    repeat apply conj.
    + lia.
    + lia.
    + intros d0 Hd0. rewrite Gd by lia. apply Fd. exact Hd0.
    + intros a Ha. rewrite Ge by lia. apply Fe. exact Ha.
    + intros k0 d0 H. apply Gk. apply Hget. exact H.
    + rewrite Gf. exact Ff.
Qed.

Lemma load_file_spec (filename : string) (data : dict (list string)) (h : Heap) :
  dict_get filename (files h) = Some data ->
  NoDup (map fst data) ->
  load_from_file Company_init filename h
  = Some (load_departments data Company_init h)
  /\ company_wf (fst (load_departments data Company_init h))
       (snd (load_departments data Company_init h))
  /\ company_staff (fst (load_departments data Company_init h))
       (snd (load_departments data Company_init h))
     = map (fun kv => (fst kv, loaded_employees (fst kv) 0 (snd kv))) data
  /\ console (snd (load_departments data Company_init h)) = console h
  /\ files (snd (load_departments data Company_init h)) = files h.
Proof.
  intros Hfile Hkeys. unfold load_from_file. rewrite Hfile.
  split; [reflexivity|].
  apply (load_departments_spec data Company_init h (company_init_wf h) Hkeys).
  intros k _ [].
Qed.

Lemma staff_names_of_loaded (data : dict (list string)) :
  map (fun kv : string * list Employee => (fst kv, map Employee_name (snd kv)))
    (map (fun kv : string * list string =>
            (fst kv, loaded_employees (fst kv) 0 (snd kv))) data)
  = data.
Proof.
  rewrite map_map. induction data as [|[k names] rest IH]; simpl; [reflexivity|].
  simpl in IH. rewrite loaded_employees_names, IH. reflexivity.
Qed.

(** X20: loading a file and saving again writes the file that was read.
    For a file holding an object with distinct keys, [load_from_file] into
    a new company succeeds and prints nothing, the data [save_to_file]
    computes from the loaded company is the content of the file, and after
    saving under the same name the file holds that content. *)
Theorem load_then_save_restores_file
  (filename : string) (data : dict (list string)) (h : Heap)
  (Hfile : dict_get filename (files h) = Some data)
  (Hkeys : NoDup (map fst data)) :
  exists self' h',
    load_from_file Company_init filename h = Some (self', h')
    /\ company_data self' h' = data
    /\ console h' = console h
    /\ dict_get filename (files (save_to_file self' filename h')) = Some data.
Proof.
  destruct (load_file_spec filename data h Hfile Hkeys)
    as [Hload [Hwf [Hstaff [Hc _]]]].
  exists (fst (load_departments data Company_init h)),
         (snd (load_departments data Company_init h)).
  assert (Hdata : company_data (fst (load_departments data Company_init h))
                    (snd (load_departments data Company_init h)) = data).
  { rewrite (company_data_wf _ _ Hwf), company_view_of_staff, Hstaff.
    apply staff_names_of_loaded. }
  repeat apply conj.
  - rewrite Hload. destruct (load_departments data Company_init h). reflexivity.
  - exact Hdata.
  - exact Hc.
  - unfold save_to_file. simpl. rewrite Hdata. apply dict_get_set_same.
Qed.

Lemma load_then_save_restores_file_witness :
  exists self' h',
    load_from_file Company_init "company_data.json"
      (mkHeap [] [] []
         [("company_data.json", [("Sales", ["Ann"; "Bob"]); ("Legal", [])])])
    = Some (self', h')
    /\ company_data self' h' = [("Sales", ["Ann"; "Bob"]); ("Legal", [])]
    /\ console h' = []
    /\ dict_get "company_data.json" (files (save_to_file self' "company_data.json" h'))
       = Some [("Sales", ["Ann"; "Bob"]); ("Legal", [])].
Proof.
  apply (load_then_save_restores_file "company_data.json"
           [("Sales", ["Ann"; "Bob"]); ("Legal", [])]
           (mkHeap [] [] []
              [("company_data.json", [("Sales", ["Ann"; "Bob"]); ("Legal", [])])])).
  - reflexivity.
  - simpl. constructor.
    + intros [E|[]]. discriminate.
    + constructor; [intros [] | constructor].
Defined.

(** X21: saving a company and loading the file into a new company gives
    the same departments with the same employee names: the load succeeds,
    and the loaded company, listed department by department in order with
    the names of its employees, is the data that was written, so that
    saving it again writes the same data. *)
Theorem save_then_load_restores_names (self : Company) (filename : string) (h : Heap) :
  exists self' h',
    load_from_file Company_init filename (save_to_file self filename h)
    = Some (self', h')
    /\ company_view self' h' = company_data self h
    /\ company_data self' h' = company_data self h
    /\ console h' = console h.
Proof.
  assert (Hfile : dict_get filename (files (save_to_file self filename h))
                  = Some (company_data self h)).
  { unfold save_to_file. simpl. apply dict_get_set_same. }
  destruct (load_file_spec filename (company_data self h)
              (save_to_file self filename h) Hfile (company_data_keys self h))
    as [Hload [Hwf [Hstaff [Hc _]]]].
  exists (fst (load_departments (company_data self h) Company_init
                 (save_to_file self filename h))),
         (snd (load_departments (company_data self h) Company_init
                 (save_to_file self filename h))).
  assert (Hview : company_view
                    (fst (load_departments (company_data self h) Company_init
                            (save_to_file self filename h)))
                    (snd (load_departments (company_data self h) Company_init
                            (save_to_file self filename h)))
                  = company_data self h).
  { rewrite company_view_of_staff, Hstaff. apply staff_names_of_loaded. }
  repeat apply conj.
  - rewrite Hload.
    destruct (load_departments (company_data self h) Company_init
                (save_to_file self filename h)). reflexivity.
  - exact Hview.
  - rewrite (company_data_wf _ _ Hwf). exact Hview.
  - rewrite Hc. reflexivity.
Qed.

(** X22: what a file does not keep.  Every employee of a company loaded
    from a file has the title "Employee", the name of its department as
    department, and as id its position in the department counted from 1,
    with the name the file gives at that position; the departments are
    those of the file, in its order. *)
Theorem loaded_employees_are_renumbered
  (filename : string) (data : dict (list string)) (h : Heap)
  (Hfile : dict_get filename (files h) = Some data)
  (Hkeys : NoDup (map fst data)) :
  exists self' h',
    load_from_file Company_init filename h = Some (self', h')
    /\ map fst (Company_departments self') = map fst data
    /\ (forall k es i e,
          In (k, es) (company_staff self' h') ->
          nth_error es i = Some e ->
          exists names n,
            In (k, names) data
            /\ nth_error names i = Some n
            /\ e = mkEmployee n (Z.of_nat i + 1) "Employee" k).
Proof.
  destruct (load_file_spec filename data h Hfile Hkeys)
    as [Hload [_ [Hstaff _]]].
  exists (fst (load_departments data Company_init h)),
         (snd (load_departments data Company_init h)).
  repeat apply conj.
  - rewrite Hload. destruct (load_departments data Company_init h). reflexivity.
  - assert (E : map fst (company_staff (fst (load_departments data Company_init h))
                           (snd (load_departments data Company_init h)))
                = map fst data).
    { rewrite Hstaff, map_map. reflexivity. }
    unfold company_staff in E. rewrite map_map in E. exact E.
  - intros k es i e Hin Hnth. rewrite Hstaff in Hin.
    apply in_map_iff in Hin. destruct Hin as [[k0 names] [E Hin]].
    simpl in E. injection E as -> <-.
    assert (Hlt : (i < List.length names)%nat).
    { rewrite <- (loaded_employees_length k 0 names).
      apply nth_error_Some. rewrite Hnth. discriminate. }
    destruct (nth_error names i) as [n|] eqn:Hn.
    2:{ apply nth_error_None in Hn. lia. }
    exists names, n. split; [exact Hin|]. split; [exact Hn|].
    rewrite (loaded_employees_nth k names 0 i n Hn) in Hnth.
    injection Hnth as <-. reflexivity.
Qed.

Lemma loaded_employees_are_renumbered_witness :
  exists self' h',
    load_from_file Company_init "company_data.json"
      (mkHeap [] [] []
         [("company_data.json", [("Sales", ["Ann"; "Bob"]); ("Legal", [])])])
    = Some (self', h')
    /\ map fst (Company_departments self') = ["Sales"; "Legal"].
Proof.
  destruct (loaded_employees_are_renumbered "company_data.json"
              [("Sales", ["Ann"; "Bob"]); ("Legal", [])]
              (mkHeap [] [] []
                 [("company_data.json", [("Sales", ["Ann"; "Bob"]); ("Legal", [])])]))
    as [self' [h' [H1 [H2 _]]]].
  - reflexivity.
  - simpl. constructor.
    + intros [E|[]]. discriminate.
    + constructor; [intros [] | constructor].
  - exists self', h'. split; [exact H1 | exact H2].
Defined.

Lemma load_departments_existing (data : dict (list string)) :
  forall self h,
    (forall k, In k (map fst data) -> In k (map fst (Company_departments self))) ->
    fst (load_departments data self h) = self
    /\ console (snd (load_departments data self h))
       = console h ++ repeat "Department already exists." (List.length data).
Proof.
  induction data as [|[k names] rest IH]; intros self h Hall.
  - simpl. rewrite app_nil_r. split; reflexivity.
  - cbn [load_departments Department_init].
    assert (Hadd :
      add_department self (List.length (department_objects h))
        (mkHeap (employee_objects h) (department_objects h ++ [mkDepartment k []])
                (console h) (files h))
      = (self,
         echo "Department already exists."
           (mkHeap (employee_objects h) (department_objects h ++ [mkDepartment k []])
                   (console h) (files h)))).
    { unfold add_department, department_at. cbn [department_objects].
      rewrite nth_middle. cbn [Department_name]. unfold dict_mem.
      destruct (dict_get k (Company_departments self)) eqn:G; [reflexivity|].
      exfalso. apply (proj1 (dict_get_none _ _) G). apply Hall. left. reflexivity. }
    rewrite Hadd.
    match goal with
    | |- context [load_departments rest self ?h2] =>
        destruct (IH self h2) as [Hs Hc]
    end.
    { intros k' Hin. apply Hall. right. exact Hin. }
    split; [exact Hs|]. rewrite Hc.
    match goal with
    | |- context [load_employees ?d k names ?h1] =>
        destruct (load_employees_spec d k names h1) as [_ [_ [Hc1 _]]]
    end.
    { simpl. rewrite length_app. simpl. lia. }
    rewrite Hc1. simpl. rewrite <- app_assoc. reflexivity.
Qed.

(** X23: [load_from_file] never merges into what the company has.  For a
    file that exists, loading into any company succeeds; every department
    the company had is still found under its name and is the same object
    with the same employees, every object allocated before is unchanged,
    and the files are untouched.  If every department of the file is
    already in the company, the company is returned as it was and
    "Department already exists." is printed once per department of the
    file: the employees of the file are attached to nothing the company
    knows. *)
Theorem load_never_merges
  (self : Company) (filename : string) (data : dict (list string)) (h : Heap)
  (Hfile : dict_get filename (files h) = Some data) :
  exists self' h',
    load_from_file self filename h = Some (self', h')
    /\ (forall k d0, dict_get k (Company_departments self) = Some d0 ->
          dict_get k (Company_departments self') = Some d0)
    /\ (forall d0, (d0 < List.length (department_objects h))%nat ->
          department_at h' d0 = department_at h d0)
    /\ (forall a, (a < List.length (employee_objects h))%nat ->
          employee_at h' a = employee_at h a)
    /\ files h' = files h
    /\ ((forall k, In k (map fst data) -> In k (map fst (Company_departments self))) ->
        self' = self
        /\ console h'
           = console h ++ repeat "Department already exists." (List.length data)).
Proof.
  exists (fst (load_departments data self h)), (snd (load_departments data self h)).
  destruct (load_departments_frame data self h) as [_ [_ [Fd [Fe [Fk Ff]]]]].
  repeat apply conj; try assumption.
  - unfold load_from_file. rewrite Hfile.
    destruct (load_departments data self h). reflexivity.
  - intros Hall. apply (load_departments_existing data self h Hall).
Qed.

Lemma load_never_merges_witness :
  exists self' h',
    load_from_file (mkCompany [("Sales", 0%nat)]) "company_data.json"
      (mkHeap [mkEmployee "Zoe" 9 "Manager" "Sales"] [mkDepartment "Sales" [0%nat]] []
         [("company_data.json", [("Sales", ["Ann"; "Bob"])])])
    = Some (self', h')
    /\ self' = mkCompany [("Sales", 0%nat)]
    /\ department_at h' 0 = mkDepartment "Sales" [0%nat]
    /\ console h' = ["Department already exists."].
Proof.
  destruct (load_never_merges (mkCompany [("Sales", 0%nat)]) "company_data.json"
              [("Sales", ["Ann"; "Bob"])]
              (mkHeap [mkEmployee "Zoe" 9 "Manager" "Sales"]
                 [mkDepartment "Sales" [0%nat]] []
                 [("company_data.json", [("Sales", ["Ann"; "Bob"])])]))
    as [self' [h' [H1 [_ [H3 [_ [_ H6]]]]]]].
  - reflexivity.
  - exists self', h'. split; [exact H1|].
    destruct H6 as [Hs Hc].
    + intros k Hin. exact Hin.
    + split; [exact Hs|]. split; [|exact Hc].
      apply (H3 0%nat). simpl. lia.
Defined.

(** ** Printing *)

Lemma fold_echo_lines {B} (line : Heap -> B -> string) (l : list B) :
  (forall h s x, line (echo s h) x = line h x) ->
  forall h,
    fold_left (fun h x => echo (line h x) h) l h
    = mkHeap (employee_objects h) (department_objects h)
             (console h ++ map (line h) l) (files h).
Proof.
  intros Hline. induction l as [|x l IH]; intros h; simpl.
  - rewrite app_nil_r. destruct h. reflexivity.
  - rewrite IH. unfold echo at 1 2 3 4. simpl. rewrite <- app_assoc. simpl.
    f_equal. f_equal. f_equal. apply map_ext. intros y. apply Hline.
Qed.

(** X24: the display methods only print, one line per item in order.
    [list_employees] prints the header with the department's name and then
    each employee as "name (ID: id)"; [display_departments] prints its
    header and then each department as "Department: name";
    [display_details] prints the four fields of the employee.  No object
    and no file changes. *)
Theorem display_methods_only_print
  (department employee : nat) (company : Company) (h : Heap) :
  list_employees department h
  = mkHeap (employee_objects h) (department_objects h)
      (console h
         ++ ("Employees in " ++ Department_name (department_at h department)
               ++ " department:")%string
            :: map (fun emp => Employee_str (employee_at h emp))
                   (Department_employees (department_at h department)))
      (files h)
  /\ display_departments company h
     = mkHeap (employee_objects h) (department_objects h)
         (console h
            ++ "Departments in the company:"
               :: map (fun kv => Department_str (department_at h (snd kv)))
                      (Company_departments company))
         (files h)
  /\ Employee_display_details employee h
     = mkHeap (employee_objects h) (department_objects h)
         (console h
            ++ [("Name: " ++ Employee_name (employee_at h employee))%string;
                ("ID: " ++ show_int (Employee_emp_id (employee_at h employee)))%string;
                ("Title: " ++ Employee_title (employee_at h employee))%string;
                ("Department: "
                   ++ Employee_department (employee_at h employee))%string])
         (files h).
Proof.
  repeat apply conj.
  - unfold list_employees.
    rewrite (fold_echo_lines (fun h emp => Employee_str (employee_at h emp)))
      by reflexivity.
    simpl. rewrite <- app_assoc. reflexivity.
  - unfold display_departments.
    rewrite (fold_echo_lines
               (fun h (kv : string * nat) => Department_str (department_at h (snd kv))))
      by reflexivity.
    simpl. rewrite <- app_assoc. reflexivity.
  - unfold Employee_display_details, echo. simpl.
    rewrite <- !app_assoc. reflexivity.
Qed.

(** ** The menu loop *)

Lemma print_menu_prompt (h : Heap) :
  echo "Enter your choice: " (print_menu h)
  = mkHeap (employee_objects h) (department_objects h)
           (console h ++ menu_lines ++ ["Enter your choice: "]) (files h).
Proof.
  unfold print_menu, echo. simpl. rewrite <- !app_assoc. reflexivity.
Qed.

Lemma main_loop_until_9 (pre : list string) :
  forall post company h,
    ~ In "9" pre ->
    main_loop company (pre ++ "9" :: post) h
    = (Exited, company,
       mkHeap (employee_objects h) (department_objects h)
         (console h
            ++ flat_map (fun choice =>
                           menu_lines ++ "Enter your choice: " :: answer_to choice) pre
            ++ menu_lines ++ ["Enter your choice: "; "Exiting..."])
         (files h)).
Proof.
  induction pre as [|c pre IH]; intros post company h Hpre.
  - cbn [List.app main_loop flat_map]. rewrite print_menu_prompt.
    simpl. unfold echo. simpl. rewrite <- !app_assoc. reflexivity.
  - assert (Hc : c <> "9") by (intros E; apply Hpre; left; exact E).
    assert (Hpre' : ~ In "9" pre) by (intros Hin; apply Hpre; right; exact Hin).
    cbn [List.app main_loop flat_map]. rewrite print_menu_prompt.
    unfold answer_to. cbn [existsb].
    destruct (String.eqb c "1"); [|destruct (String.eqb c "2");
      [|destruct (String.eqb c "3"); [|destruct (String.eqb c "4");
      [|destruct (String.eqb c "5"); [|destruct (String.eqb c "6");
      [|destruct (String.eqb c "7"); [|destruct (String.eqb c "8");
      [|destruct (String.eqb_spec c "9"); [contradiction|]]]]]]]]];
      rewrite (IH post company _ Hpre'); unfold echo; simpl;
      rewrite <- !app_assoc; reflexivity.
Qed.

Lemma main_loop_without_9 (inputs : list string) :
  forall company h,
    ~ In "9" inputs ->
    fst (main_loop company inputs h) = (EOFError, company).
Proof.
  induction inputs as [|c inputs IH]; intros company h Hno.
  - reflexivity.
  - assert (Hc : c <> "9") by (intros E; apply Hno; left; exact E).
    assert (Hno' : ~ In "9" inputs) by (intros Hin; apply Hno; right; exact Hin).
    cbn [main_loop].
    destruct (String.eqb c "1"); [|destruct (String.eqb c "2");
      [|destruct (String.eqb c "3"); [|destruct (String.eqb c "4");
      [|destruct (String.eqb c "5"); [|destruct (String.eqb c "6");
      [|destruct (String.eqb c "7"); [|destruct (String.eqb c "8");
      [|destruct (String.eqb_spec c "9"); [contradiction|]]]]]]]]];
      apply IH; exact Hno'.
Qed.

(** X25: the script runs until the first line "9".  With the lines
    before it, none a "9", it ends by the break; the company is still
    empty, no object and no file has changed, and the output is, for each
    line read, the menu and the prompt, followed by "Invalid choice. Please
    enter a number from 1 to 9." unless the line is one of "1" to "8"
    (which do nothing), and at the end the menu, the prompt and
    "Exiting...".  The lines after that "9" are not read.  Without a "9"
    the script ends with the [EOFError] of [input], the company empty. *)
Theorem menu_runs_until_first_9 (pre post : list string) (h : Heap)
  (Hpre : ~ In "9" pre) :
  main (pre ++ "9" :: post) h
  = (Exited, Company_init,
     mkHeap (employee_objects h) (department_objects h)
       (console h
          ++ flat_map (fun choice =>
                         menu_lines ++ "Enter your choice: " :: answer_to choice) pre
          ++ menu_lines ++ ["Enter your choice: "; "Exiting..."])
       (files h))
  /\ fst (main pre h) = (EOFError, Company_init).
Proof.
  split.
  - apply main_loop_until_9. exact Hpre.
  - apply main_loop_without_9. exact Hpre.
Qed.

Lemma menu_runs_until_first_9_witness :
  fst (main ["4"; "x"; "9"; "1"] empty_heap) = (Exited, Company_init)
  /\ fst (main ["4"; "x"] empty_heap) = (EOFError, Company_init).
Proof.
  destruct (menu_runs_until_first_9 ["4"; "x"] ["1"] empty_heap) as [H1 H2].
  - intros [E|[E|[]]]; discriminate.
  - split; [|exact H2].
    change (["4"; "x"; "9"; "1"]) with (["4"; "x"] ++ "9" :: ["1"]).
    rewrite H1. reflexivity.
Defined.
